(** * Canvas synchronisation layer of Text Labs: a shallow embedding

    The development follows [CanvasRenderer] (canvas-renderer.js, latest
    revision) method by method.  The renderer object and the parts of the
    browser it talks to (the iframe window, [fetch], the console, two DOM
    nodes) are gathered in one record that every method threads through.
    Effects that leave the object are appended to a trace, oldest first. *)

From Stdlib Require Import List String Ascii ZArith Bool Lia DecimalString.
From Stdlib Require HexadecimalString.
Import ListNotations.
Open Scope string_scope.
Open Scope list_scope.

(** ** JavaScript values and object literals *)

Inductive JsValue : Type :=
| JUndefined
| JNull
| JBool (b : bool)
| JNum (z : Z)
| JStr (s : string).

(** An object literal, keys in the order they are written. *)
Definition JsObject : Type := list (string * JsValue).

(** [o.k]: the first binding of [k], [undefined] when there is none. *)
Fixpoint getField (o : JsObject) (k : string) : JsValue :=
  match o with
  | [] => JUndefined
  | (k', v) :: o' => if String.eqb k' k then v else getField o' k
  end.

(** [o?.k] for [o] an object or [null]. *)
Definition optField (o : option JsObject) (k : string) : JsValue :=
  match o with
  | None => JUndefined
  | Some obj => getField obj k
  end.

(** ToBoolean on the values above (objects, always truthy, are not values
    of this type). *)
Definition truthy (v : JsValue) : bool :=
  match v with
  | JUndefined | JNull => false
  | JBool b => b
  | JNum z => negb (Z.eqb z 0)
  | JStr s => negb (String.eqb s "")
  end.

(** [a || b] *)
Definition jsOr (a b : JsValue) : JsValue := if truthy a then a else b.

(** Number to string, for the integers the grid and the clock produce. *)
Definition Z_to_string (z : Z) : string := NilZero.string_of_int (Z.to_int z).

Definition ofOptZ (o : option Z) : JsValue :=
  match o with Some z => JNum z | None => JUndefined end.

Definition ofOptStr (o : option string) : JsValue :=
  match o with Some s => JStr s | None => JUndefined end.

(** ** Data model *)

(** [{ action, params, source }] as built by [sendCommand]. *)
Record Message : Type := mkMessage {
  action : string;
  params : JsObject;
  source : string
}.

(** An entry of [this.elements].  [type] and [diagramType] are absent on
    text boxes. *)
Record Element : Type := mkElement {
  id : string;
  type : option string;
  diagramType : option string;
  html : string;
  position : JsObject
}.

Inductive LogLevel : Type := Log | Warn | Error.

(** What leaves the renderer. *)
Inductive Effect : Type :=
| PostMessage (m : Message)          (* contentWindow.postMessage(m, '*') returned *)
| PostMessageFailed (m : Message)    (* the call threw and sendCommand caught it *)
| Fetch (method url : string) (body : option JsObject)
| SetSrc (url : string)              (* iframe.src = url *)
| Console (level : LogLevel) (text : string).   (* first argument only *)

Record Canvas : Type := mkCanvas {
  (* fields of the CanvasRenderer object *)
  elements : list Element;
  isLoaded : bool;
  pendingMessages : list Message;
  (* DOM: this.placeholder (None: no such node; Some h: has class hidden = h)
     and the text of #element-count (None: no such node) *)
  placeholder : option bool;
  elementCount : option string;
  (* environment: is iframe.contentWindow a window; the value of
     window.sessionManager?.getSessionId?.() *)
  contentWindow : bool;
  sessionManagerId : option string;
  (* effects so far *)
  trace : list Effect
}.

Definition set_elements (es : list Element) (c : Canvas) : Canvas :=
  mkCanvas es (isLoaded c) (pendingMessages c) (placeholder c) (elementCount c)
           (contentWindow c) (sessionManagerId c) (trace c).

Definition set_isLoaded (b : bool) (c : Canvas) : Canvas :=
  mkCanvas (elements c) b (pendingMessages c) (placeholder c) (elementCount c)
           (contentWindow c) (sessionManagerId c) (trace c).

Definition set_pendingMessages (q : list Message) (c : Canvas) : Canvas :=
  mkCanvas (elements c) (isLoaded c) q (placeholder c) (elementCount c)
           (contentWindow c) (sessionManagerId c) (trace c).

Definition set_placeholder (p : option bool) (c : Canvas) : Canvas :=
  mkCanvas (elements c) (isLoaded c) (pendingMessages c) p (elementCount c)
           (contentWindow c) (sessionManagerId c) (trace c).

Definition set_elementCount (t : option string) (c : Canvas) : Canvas :=
  mkCanvas (elements c) (isLoaded c) (pendingMessages c) (placeholder c) t
           (contentWindow c) (sessionManagerId c) (trace c).

Definition emit (e : Effect) (c : Canvas) : Canvas :=
  mkCanvas (elements c) (isLoaded c) (pendingMessages c) (placeholder c)
           (elementCount c) (contentWindow c) (sessionManagerId c)
           (trace c ++ [e]).

Definition console (l : LogLevel) (text : string) (c : Canvas) : Canvas :=
  emit (Console l text) c.

(** The constructor's assignments, on a page whose nodes and environment
    are given. *)
Definition constructor (ph : option bool) (cnt : option string)
    (win : bool) (sid : option string) : Canvas :=
  mkCanvas [] false [] ph cnt win sid [].

(** Projections of a trace: the messages handed to [postMessage], whether or
    not the call threw, and those for which it returned. *)
Fixpoint attempts (t : list Effect) : list Message :=
  match t with
  | [] => []
  | PostMessage m :: t' => m :: attempts t'
  | PostMessageFailed m :: t' => m :: attempts t'
  | _ :: t' => attempts t'
  end.

Fixpoint delivered (t : list Effect) : list Message :=
  match t with
  | [] => []
  | PostMessage m :: t' => m :: delivered t'
  | _ :: t' => delivered t'
  end.

Fixpoint fetches (t : list Effect) : list (string * string) :=
  match t with
  | [] => []
  | Fetch m u _ :: t' => (m, u) :: fetches t'
  | _ :: t' => fetches t'
  end.

(** ** Remote command channel *)

(** [sendCommand(action, params)] *)
Definition sendCommand (act : string) (ps : JsObject) (c : Canvas) : Canvas :=
  let message := mkMessage act ps "text-labs" in
  if negb (isLoaded c) then
    set_pendingMessages (pendingMessages c ++ [message])
      (console Log "[Canvas] Queuing message for later:" c)
  else if contentWindow c then
    console Log "[Canvas] Sent command:" (emit (PostMessage message) c)
  else
    console Error "[Canvas] Failed to send command:"
      (emit (PostMessageFailed message) c).

(** [processPendingMessages()]: the [while] loop, one unit of fuel per test
    of its condition.  [None] when the fuel runs out. *)
Fixpoint processPendingMessages (fuel : nat) (c : Canvas) : option Canvas :=
  match fuel with
  | O => None
  | S fuel' =>
      match pendingMessages c with
      | [] => Some c
      | message :: rest =>
          processPendingMessages fuel'
            (sendCommand (action message) (params message)
               (set_pendingMessages rest c))
      end
  end.

(** The readiness transition: [this.isLoaded = true] followed by
    [this.processPendingMessages()], as the [onload] handler and the
    [viewerReady] case perform it.  One test per queued message and a last
    one that ends the loop. *)
Definition markReady (c : Canvas) : option Canvas :=
  processPendingMessages (S (List.length (pendingMessages c))) (set_isLoaded true c).

(** A run of [send] calls, in order. *)
Definition sendAll (cmds : list (string * JsObject)) (c : Canvas) : Canvas :=
  fold_left (fun c' cmd => sendCommand (fst cmd) (snd cmd) c') cmds c.

Definition toMessage (cmd : string * JsObject) : Message :=
  mkMessage (fst cmd) (snd cmd) "text-labs".

(** ** DOM helpers *)

(** [updateElementCount()] *)
Definition updateElementCount (c : Canvas) : Canvas :=
  match elementCount c with
  | Some _ =>
      set_elementCount
        (Some ("Elements: " ++ Z_to_string (Z.of_nat (List.length (elements c))))%string)
        c
  | None => c
  end.

(** [hidePlaceholder()] *)
Definition hidePlaceholder (c : Canvas) : Canvas :=
  match placeholder c with
  | Some _ => set_placeholder (Some true) c
  | None => c
  end.

(** [getElementCount()] and [getElements()] (a fresh array with the same
    entries). *)
Definition getElementCount (c : Canvas) : nat := List.length (elements c).
Definition getElements (c : Canvas) : list Element := elements c.

(** ** Position allocator client *)

(** What [response.json()] gives: a rejection, [null] (on which the field
    access throws), or a value whose fields can be read. *)
Inductive JsonBody : Type :=
| NotJson
| JsonNull
| JsonObject (data : JsObject).

(** How the [fetch] of a request ends. *)
Inductive FetchResult : Type :=
| NetworkError
| Response (status : Z) (body : JsonBody).

(** [response.ok] *)
Definition ok (status : Z) : bool := (200 <=? status)%Z && (status <=? 299)%Z.

(** [window.sessionManager?.getSessionId?.() || 'default'] *)
Definition sessionId (c : Canvas) : string :=
  match sessionManagerId c with
  | Some s => if String.eqb s "" then "default" else s
  | None => "default"
  end.

(** [getAutoPosition(elementId, elementType, width, height)], run to
    completion against the given outcome of its request.  [width] and
    [height] are counts of grid cells, taken as integers: the two sums and
    their printing are those of the code where the arguments and the sums
    are safe integers, which the statements about the default position
    assume. *)
Definition getAutoPosition (elementId elementType : string) (width height : Z)
    (r : FetchResult) (c : Canvas) : JsObject * Canvas :=
  let c1 :=
    emit (Fetch "POST" "/api/position/auto"
            (Some [("session_id", JStr (sessionId c));
                   ("element_id", JStr elementId);
                   ("element_type", JStr elementType);
                   ("width", JNum width);
                   ("height", JNum height)])) c in
  let caught :=
    ([("gridRow", JStr ("4/" ++ Z_to_string (4 + height))%string);
      ("gridColumn", JStr ("2/" ++ Z_to_string (2 + width))%string)],
     console Error "[Canvas] Auto-position API failed, using fallback:" c1) in
  match r with
  | NetworkError => caught
  | Response status body =>
      if negb (ok status) then caught
      else
        match body with
        | NotJson => caught
        | JsonNull => caught
        | JsonObject data =>
            ([("gridRow", getField data "grid_row");
              ("gridColumn", getField data "grid_column")],
             console Log "[Canvas] Backend auto-position:" c1)
        end
  end.

(** [notifyElementRemoved(elementId)]; [resolved] tells whether the [fetch]
    promise resolved (any status) or rejected. *)
Definition notifyElementRemoved (elementId : string) (resolved : bool)
    (c : Canvas) : Canvas :=
  let c1 :=
    emit (Fetch "DELETE"
            ("/api/position/" ++ sessionId c ++ "/elements/" ++ elementId)%string
            None) c in
  if resolved
  then console Log "[Canvas] Notified backend of element removal:" c1
  else console Warn "[Canvas] Failed to notify backend of removal:" c1.

(** ** Loading the surface *)

Inductive PromiseState : Type := Pending | Resolved | Rejected.

(** [resolve()] and [reject()] act on a pending promise only. *)
Definition settle (outcome p : PromiseState) : PromiseState :=
  match p with
  | Pending => outcome
  | _ => p
  end.

(** A call of [loadPresentation] in flight: the renderer, whether the
    five-second timer is still armed, and the promise it returned. *)
Record Loading : Type := mkLoading {
  canvas : Canvas;
  timeout : bool;
  promise : PromiseState
}.

(** The three callbacks [loadPresentation] installs. *)
Inductive LoadEvent : Type :=
| TimerFires
| IframeLoad
| IframeError.

(** [loadPresentation(viewerUrl)] up to the return of the promise. *)
Definition loadPresentation (viewerUrl : string) (c : Canvas) : Loading :=
  mkLoading
    (emit (SetSrc viewerUrl) (console Log "[Canvas] Loading presentation:" c))
    true Pending.

(** One callback.  A timer that was cleared or has fired does not fire.
    [updateScale()], a matter of CSS and floating point, is left out. *)
Definition loadStep (ev : LoadEvent) (l : Loading) : option Loading :=
  match ev with
  | TimerFires =>
      if timeout l then
        let c1 := console Warn "[Canvas] Viewer load timeout, continuing anyway"
                    (canvas l) in
        let c2 := set_isLoaded true c1 in
        Some (mkLoading c2 false (settle Resolved (promise l)))
      else Some l
  | IframeLoad =>
      let c1 := console Log "[Canvas] Viewer loaded" (canvas l) in
      let c2 := set_isLoaded true c1 in
      let c3 := hidePlaceholder c2 in
      match processPendingMessages (S (List.length (pendingMessages c3))) c3 with
      | Some c4 => Some (mkLoading c4 false (settle Resolved (promise l)))
      | None => None
      end
  | IframeError =>
      let c1 := console Error "[Canvas] Viewer load error:" (canvas l) in
      Some (mkLoading c1 false (settle Rejected (promise l)))
  end.

(** A run of callbacks, in order. *)
Fixpoint loadRun (evs : list LoadEvent) (l : Loading) : option Loading :=
  match evs with
  | [] => Some l
  | ev :: evs' =>
      match loadStep ev l with
      | Some l' => loadRun evs' l'
      | None => None
      end
  end.

(** ** Content adapter *)

(** [s.includes(needle)] *)
Fixpoint includes (s needle : string) : bool :=
  String.prefix needle s ||
  match s with
  | EmptyString => false
  | String _ s' => includes s' needle
  end.

Definition newline : string := String (ascii_of_nat 10) EmptyString.

(** What the adapter reads off the parsed document: the [outerHTML] of the
    [script] elements under [doc.head], in document order, and
    [doc.body.innerHTML]. *)
Record Document : Type := mkDocument {
  headScripts : list string;
  bodyInnerHTML : string
}.

(** The [options] argument of the insert methods; [opt_useAutoPosition] is
    the outcome of [options.useAutoPosition === true]. *)
Record Options : Type := mkOptions {
  opt_elementId : option string;
  opt_useAutoPosition : bool;
  opt_positionWidth : option Z;
  opt_positionHeight : option Z;
  opt_elementType : option string;
  opt_diagramType : option string
}.

(** [options = {}] *)
Definition noOptions : Options := mkOptions None false None None None None.

(** [a || b] for [a] a string, [null] or [undefined] and [b] a string. *)
Definition strOr (a : option string) (b : string) : string :=
  match a with
  | Some s => if String.eqb s "" then b else s
  | None => b
  end.

(** [a || b] for [a] a number or [undefined] and [b] a number. *)
Definition numOr (a : option Z) (b : Z) : Z :=
  match a with
  | Some z => if Z.eqb z 0 then b else z
  | None => b
  end.

Section Renderer.

(** [new DOMParser().parseFromString(html, 'text/html')], the browser's
    HTML parser. *)
Variable parseFromString : string -> Document.

(** [_extractBodyContent(html)] *)
Definition _extractBodyContent (html : string) : string :=
  if includes html "<!DOCTYPE" || includes html "<html" then
    let doc := parseFromString html in
    let scriptTags := String.concat newline (headScripts doc) in
    (scriptTags ++ newline ++ bodyInnerHTML doc)%string
  else html.

(** ** Element registry *)

(** [insertElement(html, position, options)]; [now] is [Date.now()] and
    [r] the outcome of the allocator request, if one is made. *)
Definition insertElement (html : string) (position : option JsObject)
    (options : Options) (now : Z) (r : FetchResult) (c : Canvas)
    : string * Canvas :=
  let defaultPosition := [("gridRow", JStr "4/18"); ("gridColumn", JStr "2/32")] in
  let elementId := strOr (opt_elementId options) ("el_" ++ Z_to_string now)%string in
  let useAutoPosition := opt_useAutoPosition options in
  let finalPosition0 :=
    match position with Some p => p | None => defaultPosition end in
  let '(finalPosition, c1) :=
    match opt_positionWidth options, opt_positionHeight options with
    | Some width, Some height =>
        if useAutoPosition && truthy (JNum width) && truthy (JNum height) then
          let '(autoPos, c') :=
            getAutoPosition elementId
              (strOr (opt_elementType options) "TEXT_BOX") width height r c in
          ([("gridRow", getField autoPos "gridRow");
            ("gridColumn", getField autoPos "gridColumn")], c')
        else (finalPosition0, c)
    | _, _ => (finalPosition0, c)
    end in
  let c2 :=
    sendCommand "insertTextBox"
      [("elementId", JStr elementId);
       ("slideIndex", JNum 0);
       ("content", JStr html);
       ("gridRow", getField finalPosition "gridRow");
       ("gridColumn", getField finalPosition "gridColumn");
       ("positionWidth", ofOptZ (opt_positionWidth options));
       ("positionHeight", ofOptZ (opt_positionHeight options));
       ("skipAutoSize", JBool true);
       ("draggable", JBool true);
       ("resizable", JBool true)] c1 in
  let c3 := console Log "[Canvas] insertElement with useAutoPosition:" c2 in
  let c4 :=
    set_elements (elements c3 ++ [mkElement elementId None None html finalPosition])
      c3 in
  (elementId, hidePlaceholder (updateElementCount c4)).

(** [insertChart(html, position, elementId, options)] *)
Definition insertChart (html : string) (position : option JsObject)
    (elementId : option string) (options : Options) (now : Z)
    (r : FetchResult) (c : Canvas) : string * Canvas :=
  let defaultPosition := [("gridRow", JStr "4/16"); ("gridColumn", JStr "2/18")] in
  let id := strOr elementId ("chart_" ++ Z_to_string now)%string in
  let cleanHtml := _extractBodyContent html in
  let useAutoPosition := opt_useAutoPosition options in
  let width := numOr (opt_positionWidth options) 14 in
  let height := numOr (opt_positionHeight options) 10 in
  let finalPosition0 :=
    match position with Some p => p | None => defaultPosition end in
  let '(finalPosition, c1) :=
    if useAutoPosition then
      let '(autoPos, c') := getAutoPosition id "CHART" width height r c in
      ([("gridRow", getField autoPos "gridRow");
        ("gridColumn", getField autoPos "gridColumn")], c')
    else (finalPosition0, c) in
  let c2 :=
    sendCommand "insertChart"
      [("id", JStr id);
       ("slideIndex", JNum 0);
       ("chartHtml", JStr cleanHtml);
       ("gridRow", getField finalPosition "gridRow");
       ("gridColumn", getField finalPosition "gridColumn");
       ("positionWidth", JNum width);
       ("positionHeight", JNum height);
       ("draggable", JBool true);
       ("resizable", JBool true)] c1 in
  let c3 :=
    set_elements
      (elements c2 ++ [mkElement id (Some "chart") None html finalPosition]) c2 in
  let c4 := hidePlaceholder (updateElementCount c3) in
  (id, console Log "[Canvas] Chart inserted with useAutoPosition:" c4).

(** [insertImage(html, position, elementId, options)] *)
Definition insertImage (html : string) (position : option JsObject)
    (elementId : option string) (options : Options) (now : Z)
    (r : FetchResult) (c : Canvas) : string * Canvas :=
  let defaultPosition := [("gridRow", JStr "4/18"); ("gridColumn", JStr "2/32")] in
  let id := strOr elementId ("img_" ++ Z_to_string now)%string in
  let useAutoPosition := opt_useAutoPosition options in
  let width := numOr (opt_positionWidth options) 14 in
  let height := numOr (opt_positionHeight options) 10 in
  let finalPosition0 :=
    [("gridRow",
      jsOr (optField position "grid_row")
        (jsOr (optField position "gridRow") (getField defaultPosition "gridRow")));
     ("gridColumn",
      jsOr (optField position "grid_column")
        (jsOr (optField position "gridColumn")
           (getField defaultPosition "gridColumn")))] in
  let '(finalPosition, c1) :=
    if useAutoPosition then
      let '(autoPos, c') := getAutoPosition id "IMAGE" width height r c in
      ([("gridRow", getField autoPos "gridRow");
        ("gridColumn", getField autoPos "gridColumn")], c')
    else (finalPosition0, c) in
  let c2 :=
    sendCommand "insertImage"
      [("id", JStr id);
       ("slideIndex", JNum 0);
       ("imageUrl", JNull);
       ("imageHtml", JStr html);
       ("gridRow", getField finalPosition "gridRow");
       ("gridColumn", getField finalPosition "gridColumn");
       ("positionWidth", JNum width);
       ("positionHeight", JNum height);
       ("skipAutoSize", JBool true);
       ("draggable", JBool true);
       ("resizable", JBool true)] c1 in
  let c3 :=
    set_elements
      (elements c2 ++ [mkElement id (Some "image") None html finalPosition]) c2 in
  let c4 := hidePlaceholder (updateElementCount c3) in
  (id, console Log "[Canvas] Image inserted with useAutoPosition:" c4).

(** [insertDiagram(html, position, elementId, options)] *)
Definition insertDiagram (html : string) (position : option JsObject)
    (elementId : option string) (options : Options) (now : Z)
    (r : FetchResult) (c : Canvas) : string * Canvas :=
  let defaultPosition := [("gridRow", JStr "4/18"); ("gridColumn", JStr "2/32")] in
  let id := strOr elementId ("diagram_" ++ Z_to_string now)%string in
  let cleanHtml := _extractBodyContent html in
  let useAutoPosition := opt_useAutoPosition options in
  let width := numOr (opt_positionWidth options) 30 in
  let height := numOr (opt_positionHeight options) 14 in
  let diagramType := strOr (opt_diagramType options) "DIAGRAM" in
  let finalPosition0 :=
    [("gridRow",
      jsOr (optField position "grid_row")
        (jsOr (optField position "gridRow") (getField defaultPosition "gridRow")));
     ("gridColumn",
      jsOr (optField position "grid_column")
        (jsOr (optField position "gridColumn")
           (getField defaultPosition "gridColumn")))] in
  let '(finalPosition, c1) :=
    if useAutoPosition then
      let '(autoPos, c') := getAutoPosition id diagramType width height r c in
      ([("gridRow", getField autoPos "gridRow");
        ("gridColumn", getField autoPos "gridColumn")], c')
    else (finalPosition0, c) in
  let c2 :=
    sendCommand "insertDiagram"
      [("id", JStr id);
       ("slideIndex", JNum 0);
       ("diagramHtml", JStr cleanHtml);
       ("gridRow", getField finalPosition "gridRow");
       ("gridColumn", getField finalPosition "gridColumn");
       ("positionWidth", JNum width);
       ("positionHeight", JNum height);
       ("draggable", JBool true);
       ("resizable", JBool true)] c1 in
  let c3 := sendCommand "reloadPresentation" [] c2 in
  let c4 :=
    set_elements
      (elements c3 ++
         [mkElement id (Some "diagram") (Some diagramType) html finalPosition])
      c3 in
  let c5 := hidePlaceholder (updateElementCount c4) in
  (id, console Log "[Canvas] Diagram inserted:" c5).

End Renderer.

(** The entry [elements.find(e => e.id === elementId)] returns, with its
    [html] overwritten in place; the array is unchanged when there is none. *)
Fixpoint setHtmlOfFirst (elementId newHtml : string) (es : list Element)
    : list Element :=
  match es with
  | [] => []
  | e :: es' =>
      if String.eqb (id e) elementId
      then mkElement (id e) (type e) (diagramType e) newHtml (position e) :: es'
      else e :: setHtmlOfFirst elementId newHtml es'
  end.

(** [updateElementContent(elementId, html)] *)
Definition updateElementContent (elementId newHtml : string) (c : Canvas)
    : Canvas :=
  let c1 :=
    sendCommand "updateTextBoxContent"
      [("elementId", JStr elementId); ("content", JStr newHtml)] c in
  set_elements (setHtmlOfFirst elementId newHtml (elements c1)) c1.

(** [deleteElement(elementId)]; [resolved] is the fate of the request made
    by [notifyElementRemoved]. *)
Definition deleteElement (elementId : string) (resolved : bool) (c : Canvas)
    : Canvas :=
  let c1 := sendCommand "deleteElement" [("elementId", JStr elementId)] c in
  let c2 :=
    set_elements
      (filter (fun e => negb (String.eqb (id e) elementId)) (elements c1)) c1 in
  let c3 := updateElementCount c2 in
  notifyElementRemoved elementId resolved c3.

(** ** Inbound messages *)

(** [v === s] for a string literal [s] *)
Definition isStr (v : JsValue) (s : string) : bool :=
  match v with
  | JStr s' => String.eqb s' s
  | _ => false
  end.

(** The listener installed by [setupMessageListener()], applied to
    [event.data]: [None] for a falsy value, otherwise the fields that can be
    read from it. *)
Definition onMessage (data : option JsObject) (c : Canvas) : option Canvas :=
  match data with
  | None => Some c
  | Some d =>
      if isStr (getField d "source") "text-labs" then Some c
      else
        let act := getField d "action" in
        let success := getField d "success" in
        if isStr act "insertTextBox" then
          Some (if truthy success
                then console Log "[Canvas] Element inserted:" c
                else console Error "[Canvas] Element insert failed:" c)
        else if isStr act "insertChart" then
          Some (if truthy success
                then console Log "[Canvas] Chart inserted:" c
                else console Error "[Canvas] Chart insert failed:" c)
        else if isStr act "deleteElement" then
          Some (if truthy success
                then console Log "[Canvas] Element deleted:" c
                else c)
        else if isStr act "elementSelected" then
          Some (console Log "[Canvas] Element selected:" c)
        else if isStr act "elementMoved" then
          Some (console Log "[Canvas] Element moved:" c)
        else if isStr act "viewerReady" then
          markReady (console Log "[Canvas] Viewer ready" c)
        else Some c
  end.

(** The action names the listener has a case for. *)
Definition recognized (act : JsValue) : bool :=
  isStr act "insertTextBox" || isStr act "insertChart" ||
  isStr act "deleteElement" || isStr act "elementSelected" ||
  isStr act "elementMoved" || isStr act "viewerReady".

(** ** Strings with quotes *)

Definition dquote : string := String (ascii_of_nat 34) EmptyString.

(** [s.replace(/ch/g, rep)] for a one-character pattern. *)
Fixpoint replaceAll (ch : ascii) (rep : string) (s : string) : string :=
  match s with
  | EmptyString => EmptyString
  | String x s' =>
      if Ascii.eqb x ch
      then (rep ++ replaceAll ch rep s')%string
      else String x (replaceAll ch rep s')
  end.

(** ** The first revision of the renderer

    [insertElement] before the allocator was introduced; the channel and the
    registry fields are those above. *)
Module FirstRevision.

(** [insertElement(html, position)] *)
Definition insertElement (html : string) (position : option JsObject)
    (now : Z) (c : Canvas) : string * Canvas :=
  let defaultPosition := [("gridRow", JStr "4/18"); ("gridColumn", JStr "2/32")] in
  let elementId := ("el_" ++ Z_to_string now)%string in
  let c1 :=
    sendCommand "insertTextBox"
      [("elementId", JStr elementId);
       ("slideIndex", JNum 0);
       ("content", JStr html);
       ("gridRow",
        jsOr (optField position "gridRow") (getField defaultPosition "gridRow"));
       ("gridColumn",
        jsOr (optField position "gridColumn")
          (getField defaultPosition "gridColumn"));
       ("skipAutoSize", JBool (match position with Some _ => true | None => false end));
       ("draggable", JBool true);
       ("resizable", JBool true)] c in
  let c2 :=
    set_elements
      (elements c1 ++
         [mkElement elementId None None html
            (match position with Some p => p | None => defaultPosition end)])
      c1 in
  (elementId, hidePlaceholder (updateElementCount c2)).

(** The two [replace] calls that prepare the chart for a [srcdoc]
    attribute. *)
Definition escapeHtml (html : string) : string :=
  replaceAll "'"%char "&#39;" (replaceAll (ascii_of_nat 34) "&quot;" html).

(** [insertChart(html, position)] *)
Definition insertChart (html : string) (position : option JsObject)
    (now : Z) (c : Canvas) : string * Canvas :=
  let defaultPosition := [("gridRow", JStr "3/19"); ("gridColumn", JStr "2/32")] in
  let elementId := ("chart_" ++ Z_to_string now)%string in
  let escapedHtml := escapeHtml html in
  let iframeHtml :=
    ("<iframe" ++ newline ++
     "            id=" ++ dquote ++ elementId ++ "-iframe" ++ dquote ++ newline ++
     "            style=" ++ dquote ++
     "width: 100%; height: 100%; border: none; display: block; background: transparent;"
     ++ dquote ++ newline ++
     "            srcdoc=" ++ dquote ++ escapedHtml ++ dquote ++ newline ++
     "            scrolling=" ++ dquote ++ "no" ++ dquote ++ newline ++
     "            frameborder=" ++ dquote ++ "0" ++ dquote ++ newline ++
     "        ></iframe>")%string in
  let c1 :=
    sendCommand "insertTextBox"
      [("elementId", JStr elementId);
       ("slideIndex", JNum 0);
       ("content", JStr iframeHtml);
       ("gridRow",
        jsOr (optField position "gridRow") (getField defaultPosition "gridRow"));
       ("gridColumn",
        jsOr (optField position "gridColumn")
          (getField defaultPosition "gridColumn"));
       ("skipAutoSize", JBool (match position with Some _ => true | None => false end));
       ("draggable", JBool true);
       ("resizable", JBool true)] c in
  let c2 :=
    set_elements
      (elements c1 ++
         [mkElement elementId (Some "chart") None html
            (match position with Some p => p | None => defaultPosition end)])
      c1 in
  let c3 := hidePlaceholder (updateElementCount c2) in
  (elementId, console Log "[Canvas] Chart inserted via iframe srcdoc:" c3).

(** [deleteElement(elementId)], without the allocator. *)
Definition deleteElement (elementId : string) (c : Canvas) : Canvas :=
  let c1 := sendCommand "deleteElement" [("elementId", JStr elementId)] c in
  updateElementCount
    (set_elements
       (filter (fun e => negb (String.eqb (id e) elementId)) (elements c1)) c1).

End FirstRevision.

(** ** Vocabulary of the statements *)

(** The call that took [c] to [c'] handed exactly the messages [ms], in
    this order, to the channel: queued while the surface is not ready,
    given to [postMessage] once it is. *)
Definition sent (c c' : Canvas) (ms : list Message) : Prop :=
  isLoaded c' = isLoaded c /\
  if isLoaded c
  then attempts (trace c') = attempts (trace c) ++ ms /\
       pendingMessages c' = pendingMessages c
  else pendingMessages c' = pendingMessages c ++ ms /\
       attempts (trace c') = attempts (trace c).

(** The three flags of an insert command. *)
Definition flags (m : Message) : JsValue * JsValue * JsValue :=
  (getField (params m) "draggable",
   getField (params m) "resizable",
   getField (params m) "skipAutoSize").




(** The character [ch] does not occur in [s]. *)
Fixpoint lacks (ch : ascii) (s : string) : bool :=
  match s with
  | EmptyString => true
  | String x s' => negb (Ascii.eqb x ch) && lacks ch s'
  end.

(** The step from [c] to [c'] left the channel alone. *)
Definition quiet (c c' : Canvas) : Prop :=
  isLoaded c' = isLoaded c /\
  pendingMessages c' = pendingMessages c /\
  attempts (trace c') = attempts (trace c).

(** A message as [processPendingMessages] sends it again. *)
Definition resend (m : Message) : Message :=
  mkMessage (action m) (params m) "text-labs".

(** [Number.isSafeInteger]: the integers a number holds exactly.  On them
    the sum of two numbers is the sum of the integers as long as it is one
    of them too, and such a number is printed in plain decimal digits. *)
Definition safeInteger (z : Z) : Prop :=
  (- 9007199254740991 <= z <= 9007199254740991)%Z.

(** The request failed: no response at all, or a status outside 200-299. *)
Definition requestFailed (r : FetchResult) : bool :=
  match r with
  | NetworkError => true
  | Response status _ => negb (ok status)
  end.

(** The caller gave a position, or the allocator was asked for one. *)
Definition positionComputed (position : option JsObject) (options : Options)
    : bool :=
  match position with
  | Some _ => true
  | None =>
      opt_useAutoPosition options &&
      truthy (ofOptZ (opt_positionWidth options)) &&
      truthy (ofOptZ (opt_positionHeight options))
  end.

(** ** The rest of the renderer *)

(** [clearElements()]; [resolved] is the fate of the request that clears the
    occupancy tracker. *)
Definition clearElements (resolved : bool) (c : Canvas) : Canvas :=
  let c1 :=
    fold_left
      (fun c' element =>
         sendCommand "deleteElement" [("elementId", JStr (id element))] c')
      (elements c) c in
  let c2 := updateElementCount (set_elements [] c1) in
  let c3 :=
    emit (Fetch "DELETE" ("/api/position/" ++ sessionId c2 ++ "/clear")%string None)
      c2 in
  let c4 :=
    if resolved
    then console Log "[Canvas] Backend occupancy cleared" c3
    else console Warn "[Canvas] Failed to clear backend occupancy:" c3 in
  sendCommand "reloadPresentation" [] c4.

(** [showPlaceholder()] *)
Definition showPlaceholder (c : Canvas) : Canvas :=
  match placeholder c, elements c with
  | Some _, [] => set_placeholder (Some false) c
  | _, _ => c
  end.

(** ** The API client (api-client.js) *)
Module TextLabsAPI.

(** What a call ends with: the parsed body ([None] for [null]) or an error
    with its [message]. *)
Inductive Result : Type :=
| Returned (data : option JsObject)
| Thrown (message : string).

(** How [fetch] ends for the client: the promise rejects with an error
    carrying [message], or a response arrives. *)
Inductive Reply : Type :=
| Rejects (message : string)
| Answers (status : Z) (body : JsonBody).

(** [String(v)] on the values above. *)
Definition toString (v : JsValue) : string :=
  match v with
  | JUndefined => "undefined"
  | JNull => "null"
  | JBool true => "true"
  | JBool false => "false"
  | JNum z => Z_to_string z
  | JStr s => s
  end.

Section Engine.

(** The messages of the engine's own errors: the [SyntaxError] of
    [response.json()] and the [TypeError] of reading a property of [null]. *)
Variables syntaxError typeError : string.

(** [request(endpoint, options)] against the given reply.  The result of the
    [catch] block, which logs and throws the error again, is the error. *)
Definition request (reply : Reply) : Result :=
  match reply with
  | Rejects message => Thrown message
  | Answers status body =>
      if negb (ok status) then
        match body with
        | NotJson => Thrown ("HTTP " ++ Z_to_string status)%string
        | JsonNull => Thrown typeError
        | JsonObject errorData =>
            Thrown (toString
                      (jsOr (getField errorData "detail")
                         (JStr ("HTTP " ++ Z_to_string status)%string)))
        end
      else
        match body with
        | NotJson => Thrown syntaxError
        | JsonNull => Returned None
        | JsonObject data => Returned (Some data)
        end
  end.

(** [getCanvasState(sessionId)] *)
Definition getCanvasState (reply : Reply) : Result :=
  match request reply with
  | Returned data => Returned data
  | Thrown message =>
      if includes message "404" then Returned None else Thrown message
  end.

End Engine.

End TextLabsAPI.

(** ** The application (app.js) *)
Module TextLabsApp.

(** An entry of [state.elements] as the backend sends it: its [html], when
    it has one, and its [grid_position], when it has one. *)
Record StateElement : Type := mkStateElement {
  se_html : option string;
  se_grid_position : option JsObject
}.

(** The body of the [forEach] in [restoreCanvasState()]; [now] is the clock
    at this turn. *)
Definition restoreElement (c : Canvas) (entry : StateElement * Z) : Canvas :=
  let '(element, now) := entry in
  if truthy (ofOptStr (se_html element)) then
    snd (insertElement (strOr (se_html element) "")
           (Some [("gridRow",
                   jsOr (optField (se_grid_position element) "grid_row")
                     (JStr "4/18"));
                  ("gridColumn",
                   jsOr (optField (se_grid_position element) "grid_column")
                     (JStr "2/32"))])
           noOptions now NetworkError c)
  else c.

(** [restoreCanvasState()] once [getCanvasState] has answered: [None] for an
    error, which is caught and logged, otherwise the state ([None] for
    [null]) with its [elements], each paired with the clock at its turn. *)
Definition restoreCanvasState
    (state : option (option (list (StateElement * Z)))) (c : Canvas) : Canvas :=
  match state with
  | None => console Log "[App] No existing canvas state" c
  | Some None => c
  | Some (Some []) => c
  | Some (Some entries) =>
      fold_left restoreElement entries (console Log "[App] Restoring" c)
  end.

End TextLabsApp.

(** ** The session manager (session-manager.js) *)
Module SessionManager.

(** [localStorage], newest binding first. *)
Definition Storage : Type := list (string * string).

Fixpoint getItem (st : Storage) (key : string) : option string :=
  match st with
  | [] => None
  | (k, v) :: st' => if String.eqb k key then Some v else getItem st' key
  end.

Definition setItem (st : Storage) (key value : string) : Storage :=
  (key, value) :: st.

(** [v.toString(16)] *)
Definition toString16 (v : Z) : string :=
  HexadecimalString.NilZero.string_of_int (Z.to_hex_int v).

(** The callback of [replace(/[xy]/g, ...)]; [r] is the value of
    [Math.random() * 16 | 0] at this call. *)
Definition hexFor (c : ascii) (r : Z) : string :=
  let v := if Ascii.eqb c "x"%char then r else Z.lor (Z.land r 3) 8 in
  toString16 v.

(** [t.replace(/[xy]/g, callback)]; [random k] is the value drawn at the
    [k]-th call. *)
Fixpoint replaceXY (t : string) (random : nat -> Z) (k : nat) : string :=
  match t with
  | EmptyString => EmptyString
  | String c t' =>
      if Ascii.eqb c "x"%char || Ascii.eqb c "y"%char
      then (hexFor c (random k) ++ replaceXY t' random (S k))%string
      else String c (replaceXY t' random k)
  end.

(** [generateId()] *)
Definition generateId (random : nat -> Z) : string :=
  ("tl_" ++ replaceXY "xxxxxxxx-xxxx-4xxx-yxxx-xxxxxxxxxxxx" random 0)%string.

(** [loadOrCreate()]: the id and the storage it leaves. *)
Definition loadOrCreate (storageKey : string) (random : nat -> Z) (st : Storage)
    : string * Storage :=
  match getItem st storageKey with
  | Some sessionId =>
      if String.eqb sessionId ""
      then (generateId random, setItem st storageKey (generateId random))
      else (sessionId, st)
  | None => (generateId random, setItem st storageKey (generateId random))
  end.

(** [reset()] *)
Definition reset (storageKey : string) (random : nat -> Z) (st : Storage)
    : string * Storage :=
  (generateId random, setItem st storageKey (generateId random)).

(** [getDisplayId()] *)
Definition getDisplayId (id : string) : string :=
  (String.substring 0 12 id ++ "...")%string.

End SessionManager.

(** ** The component modal (atomic-modal.js) *)
Module AtomicModal.

(** The [while] loop of [calculateGCD], one unit of fuel per test. *)
Fixpoint gcdLoop (fuel : nat) (a b : Z) : option Z :=
  match fuel with
  | O => None
  | S fuel' =>
      if (b >? 0)%Z then gcdLoop fuel' b (Z.rem a b) else Some a
  end.

(** [calculateGCD(a, b)] on integers, with the fuel given. *)
Definition calculateGCD (fuel : nat) (a b : Z) : option Z :=
  match gcdLoop fuel (Z.abs a) (Z.abs b) with
  | Some g => Some (if Z.eqb g 0 then 1%Z else g)
  | None => None
  end.

End AtomicModal.

(** ** Vocabulary of the further statements *)

(** The counter node, when the page has one, shows the number of tracked
    elements. *)
Definition counterInSync (c : Canvas) : Prop :=
  match elementCount c with
  | Some text =>
      text = ("Elements: " ++ Z_to_string (Z.of_nat (List.length (elements c))))%string
  | None => True
  end.

(** The command [deleteElement] and [clearElements] send for an id. *)
Definition deleteCommand (elementId : string) : Message :=
  mkMessage "deleteElement" [("elementId", JStr elementId)] "text-labs".

(** The placeholder node, when the page has one, is hidden ([true]) or
    shown ([false]). *)
Definition placeholderIs (hidden : bool) (c0 c : Canvas) : Prop :=
  placeholder c = match placeholder c0 with Some _ => Some hidden | None => None end.

(** The entries of a saved state that carry html, and the element each of
    them becomes in the registry. *)
Definition hasHtml (entry : TextLabsApp.StateElement * Z) : bool :=
  truthy (ofOptStr (TextLabsApp.se_html (fst entry))).

Definition restoredElement (entry : TextLabsApp.StateElement * Z) : Element :=
  mkElement ("el_" ++ Z_to_string (snd entry))%string None None
    (strOr (TextLabsApp.se_html (fst entry)) "")
    [("gridRow",
      jsOr (optField (TextLabsApp.se_grid_position (fst entry)) "grid_row")
        (JStr "4/18"));
     ("gridColumn",
      jsOr (optField (TextLabsApp.se_grid_position (fst entry)) "grid_column")
        (JStr "2/32"))].

(** The default position [getAutoPosition] falls back on. *)
Definition fallbackPosition (width height : Z) : JsObject :=
  [("gridRow", JStr ("4/" ++ Z_to_string (4 + height))%string);
   ("gridColumn", JStr ("2/" ++ Z_to_string (2 + width))%string)].

(** ** Sample page and inputs *)

(** A freshly constructed renderer on a page that has the placeholder, the
    counter and an attached iframe, and no session manager. *)
Definition page : Canvas := constructor (Some false) (Some "Elements: 0") true None.

Definition sampleCommands : list (string * JsObject) :=
  [("insertTextBox", [("elementId", JStr "el_1"); ("content", JStr "<p>one</p>")]);
   ("updateTextBoxContent", [("elementId", JStr "el_1"); ("content", JStr "<p>two</p>")]);
   ("deleteElement", [("elementId", JStr "el_1")])].

(** The page after a text box was inserted before the surface is ready. *)
Definition pageWithQueuedInsert : Canvas :=
  snd (insertElement "<p>one</p>" None noOptions 1700000000000 NetworkError page).



(** * Properties *)

(** ** Traces *)

Lemma attempts_app (t u : list Effect) :
  attempts (t ++ u) = attempts t ++ attempts u.
Proof.
  induction t as [|e t IH]; simpl; [reflexivity|].
  destruct e; simpl; rewrite IH; reflexivity.
Qed.

Lemma delivered_app (t u : list Effect) :
  delivered (t ++ u) = delivered t ++ delivered u.
Proof.
  induction t as [|e t IH]; simpl; [reflexivity|].
  destruct e; simpl; rewrite IH; reflexivity.
Qed.

Lemma fetches_app (t u : list Effect) :
  fetches (t ++ u) = fetches t ++ fetches u.
Proof.
  induction t as [|e t IH]; simpl; [reflexivity|].
  destruct e; simpl; rewrite IH; reflexivity.
Qed.

Create Rewrite HintDb trace.
#[local] Hint Rewrite attempts_app delivered_app fetches_app app_nil_r : trace.

(** Unfolds the calls on the renderer and normalises the projections of the
    traces that result. *)
Ltac run :=
  cbn [set_elements set_isLoaded set_pendingMessages set_placeholder
       set_elementCount emit console elements isLoaded pendingMessages
       placeholder elementCount contentWindow sessionManagerId trace
       canvas timeout promise fst snd];
  autorewrite with trace;
  cbn [attempts delivered fetches app].

(** ** The channel *)

(** A [send] touches the queue and the trace, nothing else. *)
Lemma sendCommand_frame (a : string) (p : JsObject) (c : Canvas) :
  elements (sendCommand a p c) = elements c /\
  isLoaded (sendCommand a p c) = isLoaded c /\
  placeholder (sendCommand a p c) = placeholder c /\
  elementCount (sendCommand a p c) = elementCount c /\
  contentWindow (sendCommand a p c) = contentWindow c /\
  sessionManagerId (sendCommand a p c) = sessionManagerId c.
Proof.
  unfold sendCommand.
  destruct (isLoaded c) eqn:L; simpl; [destruct (contentWindow c) eqn:W|];
    simpl; repeat split; assumption || reflexivity.
Qed.

Lemma sendCommand_not_ready (a : string) (p : JsObject) (c : Canvas) :
  isLoaded c = false ->
  pendingMessages (sendCommand a p c) =
    pendingMessages c ++ [mkMessage a p "text-labs"] /\
  attempts (trace (sendCommand a p c)) = attempts (trace c) /\
  fetches (trace (sendCommand a p c)) = fetches (trace c) /\
  delivered (trace (sendCommand a p c)) = delivered (trace c).
Proof.
  intros L. unfold sendCommand. rewrite L. simpl. run. repeat split.
Qed.

Lemma sendCommand_ready (a : string) (p : JsObject) (c : Canvas) :
  isLoaded c = true ->
  pendingMessages (sendCommand a p c) = pendingMessages c /\
  attempts (trace (sendCommand a p c)) =
    attempts (trace c) ++ [mkMessage a p "text-labs"] /\
  fetches (trace (sendCommand a p c)) = fetches (trace c) /\
  (contentWindow c = true ->
   delivered (trace (sendCommand a p c)) =
     delivered (trace c) ++ [mkMessage a p "text-labs"]).
Proof.
  intros L. unfold sendCommand. rewrite L. simpl.
  destruct (contentWindow c); run; repeat split; intros; congruence.
Qed.

Lemma sendCommand_sent (a : string) (p : JsObject) (c : Canvas) :
  sent c (sendCommand a p c) [mkMessage a p "text-labs"].
Proof.
  unfold sent. destruct (sendCommand_frame a p c) as (_ & Hl & _).
  split; [exact Hl|]. destruct (isLoaded c) eqn:L.
  - destruct (sendCommand_ready a p c L) as (Hq & Ha & _). split; assumption.
  - destruct (sendCommand_not_ready a p c L) as (Hq & Ha & _). split; assumption.
Qed.

Lemma quiet_refl (c : Canvas) : quiet c c.
Proof. repeat split. Qed.

Lemma quiet_trans (c1 c2 c3 : Canvas) : quiet c1 c2 -> quiet c2 c3 -> quiet c1 c3.
Proof.
  intros (L1 & Q1 & A1) (L2 & Q2 & A2). repeat split; congruence.
Qed.

Lemma sent_quiet_l (c0 c c' : Canvas) (ms : list Message) :
  quiet c0 c -> sent c c' ms -> sent c0 c' ms.
Proof.
  unfold sent. intros (L & Q & A) (L' & H). rewrite L in *. rewrite Q, A in H.
  split; assumption.
Qed.

Lemma sent_quiet_r (c c' c'' : Canvas) (ms : list Message) :
  sent c c' ms -> quiet c' c'' -> sent c c'' ms.
Proof.
  unfold sent. intros (L' & H) (L & Q & A). rewrite L, Q, A.
  split; assumption.
Qed.

Lemma sent_app (c c' c'' : Canvas) (ms ms' : list Message) :
  sent c c' ms -> sent c' c'' ms' -> sent c c'' (ms ++ ms').
Proof.
  unfold sent. intros (L & H) (L' & H'). rewrite L in *.
  split; [congruence|].
  destruct (isLoaded c); destruct H as (H1 & H2); destruct H' as (H1' & H2');
    rewrite H1', H2', H1, H2, ?app_assoc; split; reflexivity.
Qed.

Lemma quiet_console (c0 : Canvas) (l : LogLevel) (text : string) (c : Canvas) :
  quiet c0 c -> quiet c0 (console l text c).
Proof. intros H. apply (quiet_trans _ _ _ H). unfold quiet. run. repeat split. Qed.

Lemma quiet_fetch (c0 : Canvas) (m u : string) (b : option JsObject) (c : Canvas) :
  quiet c0 c -> quiet c0 (emit (Fetch m u b) c).
Proof. intros H. apply (quiet_trans _ _ _ H). unfold quiet. run. repeat split. Qed.

Lemma quiet_set_elements (c0 : Canvas) (es : list Element) (c : Canvas) :
  quiet c0 c -> quiet c0 (set_elements es c).
Proof. intros H. apply (quiet_trans _ _ _ H). repeat split. Qed.

Lemma quiet_updateElementCount (c0 c : Canvas) :
  quiet c0 c -> quiet c0 (updateElementCount c).
Proof.
  intros H. apply (quiet_trans _ _ _ H).
  unfold updateElementCount. destruct (elementCount c); repeat split.
Qed.

Lemma quiet_hidePlaceholder (c0 c : Canvas) :
  quiet c0 c -> quiet c0 (hidePlaceholder c).
Proof.
  intros H. apply (quiet_trans _ _ _ H).
  unfold hidePlaceholder. destruct (placeholder c); repeat split.
Qed.

Lemma quiet_getAutoPosition (c0 : Canvas) (i k : string) (w h : Z)
    (r : FetchResult) (c : Canvas) :
  quiet c0 c -> quiet c0 (snd (getAutoPosition i k w h r c)).
Proof.
  intros H. apply (quiet_trans _ _ _ H). unfold getAutoPosition.
  destruct r as [|status body]; [|destruct (ok status); [destruct body|]];
    unfold quiet; simpl; run; repeat split.
Qed.

Lemma quiet_notifyElementRemoved (c0 : Canvas) (i : string) (b : bool) (c : Canvas) :
  quiet c0 c -> quiet c0 (notifyElementRemoved i b c).
Proof.
  intros H. apply (quiet_trans _ _ _ H).
  unfold notifyElementRemoved, quiet. destruct b; run; repeat split.
Qed.

Create HintDb channel.
#[local] Hint Resolve quiet_refl quiet_console quiet_fetch quiet_set_elements
  quiet_updateElementCount quiet_hidePlaceholder quiet_getAutoPosition
  quiet_notifyElementRemoved : channel.

(** While the surface is not ready a run of sends only lengthens the queue. *)
Lemma sendAll_not_ready (cmds : list (string * JsObject)) :
  forall c, isLoaded c = false ->
    isLoaded (sendAll cmds c) = false /\
    pendingMessages (sendAll cmds c) = pendingMessages c ++ map toMessage cmds /\
    attempts (trace (sendAll cmds c)) = attempts (trace c) /\
    delivered (trace (sendAll cmds c)) = delivered (trace c) /\
    elements (sendAll cmds c) = elements c /\
    contentWindow (sendAll cmds c) = contentWindow c.
Proof.
  induction cmds as [|[a p] cmds IH]; intros c L; simpl.
  - rewrite app_nil_r. repeat split; assumption.
  - destruct (sendCommand_frame a p c) as (He & Hl & _ & _ & Hw & _).
    destruct (sendCommand_not_ready a p c L) as (Hq & Ha & _ & Hd).
    destruct (IH (sendCommand a p c)) as (L' & Hq' & Ha' & Hd' & He' & Hw').
    { rewrite Hl. exact L. }
    unfold sendAll in *. simpl.
    rewrite L', Hq', Ha', Hd', He', Hw', Hq, Ha, Hd, He, Hw, <- app_assoc.
    repeat split.
Qed.

(** Once the surface is ready the loop ends within one test per queued
    message plus one, and hands every message over, oldest first. *)
Lemma processPendingMessages_ready (fuel : nat) :
  forall c, isLoaded c = true -> List.length (pendingMessages c) < fuel ->
    exists c',
      processPendingMessages fuel c = Some c' /\
      pendingMessages c' = [] /\
      isLoaded c' = true /\
      elements c' = elements c /\
      contentWindow c' = contentWindow c /\
      attempts (trace c') = attempts (trace c) ++ map resend (pendingMessages c) /\
      (contentWindow c = true ->
       delivered (trace c') =
         delivered (trace c) ++ map resend (pendingMessages c)).
Proof.
  induction fuel as [|fuel IH]; intros c L Hlen; [lia|].
  simpl. destruct (pendingMessages c) as [|m rest] eqn:Q.
  - exists c. rewrite Q, !app_nil_r. repeat split; assumption || reflexivity.
  - set (c0 := set_pendingMessages rest c).
    assert (L0 : isLoaded c0 = true) by exact L.
    destruct (sendCommand_frame (action m) (params m) c0) as (He & Hl & _ & _ & Hw & _).
    destruct (sendCommand_ready (action m) (params m) c0 L0) as (Hq & Ha & _ & Hd).
    destruct (IH (sendCommand (action m) (params m) c0)) as
      (c' & Hrun & Hq' & Hl' & He' & Hw' & Ha' & Hd').
    { rewrite Hl. exact L0. }
    { rewrite Hq. subst c0. simpl in *. lia. }
    exists c'. rewrite Hrun, Hq', Hl', He', Hw', Ha', He, Hw, Hq, Ha.
    subst c0. simpl. rewrite <- app_assoc. simpl.
    repeat split. intros W.
    rewrite Hd' by (rewrite Hw; exact W).
    rewrite Hd by exact W. rewrite Hq, <- app_assoc. reflexivity.
Qed.

(** The loop does not end when it is entered before the surface is ready
    with a message queued: each turn puts back what it took. *)
Lemma processPendingMessages_not_ready (fuel : nat) :
  forall c, isLoaded c = false -> pendingMessages c <> [] ->
    processPendingMessages fuel c = None.
Proof.
  induction fuel as [|fuel IH]; intros c L Q; [reflexivity|].
  simpl. destruct (pendingMessages c) as [|m rest] eqn:E; [congruence|].
  apply IH.
  - destruct (sendCommand_frame (action m) (params m) (set_pendingMessages rest c))
      as (_ & Hl & _). rewrite Hl. exact L.
  - destruct (sendCommand_not_ready (action m) (params m)
                (set_pendingMessages rest c) L) as (Hq & _).
    rewrite Hq. simpl. destruct rest; discriminate.
Qed.

Lemma markReady_flushes (c : Canvas) :
  exists c',
    markReady c = Some c' /\
    pendingMessages c' = [] /\
    isLoaded c' = true /\
    elements c' = elements c /\
    contentWindow c' = contentWindow c /\
    attempts (trace c') = attempts (trace c) ++ map resend (pendingMessages c) /\
    (contentWindow c = true ->
     delivered (trace c') = delivered (trace c) ++ map resend (pendingMessages c)).
Proof.
  unfold markReady.
  destruct (processPendingMessages_ready (S (List.length (pendingMessages c)))
              (set_isLoaded true c)) as (c' & H); [reflexivity|simpl; lia|].
  exists c'. exact H.
Qed.

Lemma resend_toMessage (cmds : list (string * JsObject)) :
  map resend (map toMessage cmds) = map toMessage cmds.
Proof.
  induction cmds as [|cmd cmds IH]; simpl; [reflexivity|]. rewrite IH. reflexivity.
Qed.

(** C1.  Sends made while the surface is not ready are all queued, one entry
    per call and in call order, and none is handed to the surface.  The
    readiness transition that follows returns, empties the queue, and hands
    the surface what was queued before together with the new commands, each
    once and in submission order; with the iframe window present each of
    these calls to postMessage goes through. *)
Theorem C1_queue_then_flush_in_order
    (cmds : list (string * JsObject)) (c : Canvas) :
  isLoaded c = false ->
  let c1 := sendAll cmds c in
  pendingMessages c1 = pendingMessages c ++ map toMessage cmds /\
  attempts (trace c1) = attempts (trace c) /\
  exists c2,
    markReady c1 = Some c2 /\
    isLoaded c2 = true /\
    pendingMessages c2 = [] /\
    attempts (trace c2) =
      attempts (trace c) ++ map resend (pendingMessages c) ++ map toMessage cmds /\
    (contentWindow c = true ->
     delivered (trace c2) =
       delivered (trace c) ++ map resend (pendingMessages c) ++ map toMessage cmds).
Proof.
  intros L c1.
  destruct (sendAll_not_ready cmds c L) as (L1 & Hq & Ha & Hd & _ & Hw).
  fold c1 in L1, Hq, Ha, Hd, Hw.
  destruct (markReady_flushes c1) as (c2 & Hrun & Hq2 & Hl2 & _ & _ & Ha2 & Hd2).
  split; [exact Hq|]. split; [exact Ha|].
  exists c2. rewrite Hq, map_app, resend_toMessage in Ha2, Hd2.
  repeat split; try assumption.
  - rewrite Ha2, Ha. reflexivity.
  - intros W. rewrite Hd2 by (rewrite Hw; exact W).
    rewrite Hd. reflexivity.
Qed.

Lemma C1_queue_then_flush_in_order_witness :
  isLoaded page = false /\
  exists c2,
    markReady (sendAll sampleCommands page) = Some c2 /\
    pendingMessages c2 = [] /\
    delivered (trace c2) = map toMessage sampleCommands.
Proof.
  split; [reflexivity|].
  destruct (C1_queue_then_flush_in_order sampleCommands page eq_refl)
    as (_ & _ & c2 & Hrun & _ & Hq & _ & Hd).
  exists c2. split; [exact Hrun|]. split; [exact Hq|].
  exact (Hd eq_refl).
Defined.

(** C7.  The readiness transition always returns, and performing it again
    right after changes nothing: the renderer and its trace are the same, so
    no command that was flushed is handed to the surface again. *)
Theorem C7_second_markReady_dispatches_nothing (c : Canvas) :
  exists c1 c2,
    markReady c = Some c1 /\
    markReady c1 = Some c2 /\
    c2 = c1 /\
    attempts (trace c2) = attempts (trace c1) /\
    pendingMessages c2 = [].
Proof.
  destruct (markReady_flushes c) as (c1 & Hrun & Hq & Hl & _).
  exists c1, c1. split; [exact Hrun|].
  split; [|repeat split; exact Hq].
  unfold markReady. rewrite Hq. simpl. rewrite Hq.
  destruct c1; simpl in *. subst. reflexivity.
Qed.

(** ** The allocator client *)

(** C2.  For a width and a height that are safe integers, with 2 + width
    and 4 + height safe integers too: when the allocation request fails, by
    a network error or by a status outside 200-299, getAutoPosition returns
    the default position gridRow = 4/(4+height), gridColumn = 2/(2+width),
    the sums printed in decimal; for width 10 and height 6 that is 4/10 and
    2/12.  The function is total, so nothing is raised. *)
Theorem C2_fallback_position
    (elementId elementType : string) (width height : Z)
    (r : FetchResult) (c : Canvas) :
  safeInteger width -> safeInteger height ->
  safeInteger (2 + width) -> safeInteger (4 + height) ->
  requestFailed r = true ->
  fst (getAutoPosition elementId elementType width height r c) =
    [("gridRow", JStr ("4/" ++ Z_to_string (4 + height))%string);
     ("gridColumn", JStr ("2/" ++ Z_to_string (2 + width))%string)] /\
  fst (getAutoPosition elementId elementType 10 6 r c) =
    [("gridRow", JStr "4/10"); ("gridColumn", JStr "2/12")].
Proof.
  intros _ _ _ _ F. unfold getAutoPosition.
  destruct r as [|status body]; simpl in F.
  - split; reflexivity.
  - rewrite F. split; reflexivity.
Qed.

Lemma C2_fallback_position_witness :
  safeInteger 10 /\ safeInteger 6 /\ safeInteger (2 + 10) /\ safeInteger (4 + 6) /\
  requestFailed (Response 503 NotJson) = true /\
  fst (getAutoPosition "el_1" "TEXT_BOX" 10 6 (Response 503 NotJson) page) =
    [("gridRow", JStr "4/10"); ("gridColumn", JStr "2/12")].
Proof.
  assert (S1 : safeInteger 10) by (unfold safeInteger; lia).
  assert (S2 : safeInteger 6) by (unfold safeInteger; lia).
  assert (S3 : safeInteger (2 + 10)) by (unfold safeInteger; lia).
  assert (S4 : safeInteger (4 + 6)) by (unfold safeInteger; lia).
  repeat (split; [assumption|]).
  split; [reflexivity|].
  exact (proj1 (C2_fallback_position "el_1" "TEXT_BOX" 10 6
                  (Response 503 NotJson) page S1 S2 S3 S4 eq_refl)).
Defined.

(** ** Loading the surface *)

(** Every callback returns. *)
Lemma loadStep_total (ev : LoadEvent) (l : Loading) :
  exists l', loadStep ev l = Some l'.
Proof.
  destruct ev; unfold loadStep.
  - destruct (timeout l); eexists; reflexivity.
  - set (c3 := hidePlaceholder _).
    assert (L : isLoaded c3 = true).
    { subst c3. unfold hidePlaceholder. simpl.
      destruct (placeholder (canvas l)); reflexivity. }
    destruct (processPendingMessages_ready (S (List.length (pendingMessages c3))) c3 L)
      as (c4 & Hrun & _); [lia|].
    rewrite Hrun. eexists; reflexivity.
  - eexists; reflexivity.
Qed.

(** The promise is rejected only by the error callback. *)
Lemma loadRun_rejected (evs : list LoadEvent) :
  forall l l', loadRun evs l = Some l' -> promise l <> Rejected ->
    promise l' = Rejected -> In IframeError evs.
Proof.
  induction evs as [|ev evs IH]; intros l l' Hrun Hp Hr; simpl in *.
  - injection Hrun as <-. contradiction.
  - destruct (loadStep ev l) as [l1|] eqn:Hs; [|discriminate].
    destruct ev; [right|right|left; reflexivity];
      apply (IH l1 l' Hrun); try exact Hr; unfold loadStep in Hs.
    + destruct (timeout l); injection Hs as <-; simpl;
        [destruct (promise l); simpl; congruence | exact Hp].
    + destruct (processPendingMessages _ _); [|discriminate].
      injection Hs as <-. simpl. destruct (promise l); simpl; congruence.
Qed.

(** The load callback performs the readiness transition and resolves. *)
Lemma loadStep_onload (l : Loading) :
  exists l',
    loadStep IframeLoad l = Some l' /\
    promise l' = settle Resolved (promise l) /\
    isLoaded (canvas l') = true /\
    pendingMessages (canvas l') = [] /\
    attempts (trace (canvas l')) =
      attempts (trace (canvas l)) ++ map resend (pendingMessages (canvas l)).
Proof.
  unfold loadStep. set (c3 := hidePlaceholder _).
  assert (H3 : isLoaded c3 = true /\
               pendingMessages c3 = pendingMessages (canvas l) /\
               attempts (trace c3) = attempts (trace (canvas l))).
  { subst c3. unfold hidePlaceholder. simpl.
    destruct (placeholder (canvas l)); run; repeat split. }
  destruct H3 as (L & Q & A).
  destruct (processPendingMessages_ready (S (List.length (pendingMessages c3))) c3 L)
    as (c4 & Hrun & Hq & Hl & _ & _ & Ha & _); [lia|].
  rewrite Hrun. eexists. split; [reflexivity|]. simpl.
  rewrite Ha, A, Q. repeat split; assumption.
Qed.

(** The timer callback resolves and sets the flag, and leaves the queue as
    it is: nothing is handed to the surface. *)
Lemma loadStep_timeout (viewerUrl : string) (c : Canvas) :
  exists l',
    loadStep TimerFires (loadPresentation viewerUrl c) = Some l' /\
    promise l' = Resolved /\
    isLoaded (canvas l') = true /\
    pendingMessages (canvas l') = pendingMessages c /\
    attempts (trace (canvas l')) = attempts (trace c).
Proof.
  eexists. split; [reflexivity|]. simpl. run. repeat split.
Qed.

(** C3, evaluated where the code and the claim part.  A text box is inserted
    before the surface is ready, the load is started and the timer fires:
    the promise is resolved and the flag set, yet the insertTextBox command
    stays in the queue and nothing was handed to the surface.  A command
    sent afterwards goes out at once, ahead of the queued one. *)
Theorem C3_timeout_resolves_without_flush :
  exists l,
    loadRun [TimerFires] (loadPresentation "/viewer" pageWithQueuedInsert) = Some l /\
    promise l = Resolved /\
    isLoaded (canvas l) = true /\
    map action (pendingMessages (canvas l)) = ["insertTextBox"] /\
    attempts (trace (canvas l)) = [] /\
    let c' := deleteElement "el_1700000000000" true (canvas l) in
    map action (attempts (trace c')) = ["deleteElement"] /\
    map action (pendingMessages c') = ["insertTextBox"].
Proof.
  eexists. split; [reflexivity|]. vm_compute. repeat split.
Qed.

(** ** Insertion *)

Lemma sent_sendCommand (c0 : Canvas) (a : string) (p : JsObject) (c : Canvas) :
  quiet c0 c -> sent c0 (sendCommand a p c) [mkMessage a p "text-labs"].
Proof. intros Q. exact (sent_quiet_l _ _ _ _ Q (sendCommand_sent a p c)). Qed.

Lemma sent_console (c0 : Canvas) (l : LogLevel) (text : string) (c : Canvas)
    (ms : list Message) :
  sent c0 c ms -> sent c0 (console l text c) ms.
Proof. intros H. apply (sent_quiet_r _ _ _ _ H). auto with channel. Qed.

Lemma sent_set_elements (c0 : Canvas) (es : list Element) (c : Canvas)
    (ms : list Message) :
  sent c0 c ms -> sent c0 (set_elements es c) ms.
Proof. intros H. apply (sent_quiet_r _ _ _ _ H). auto with channel. Qed.

Lemma sent_updateElementCount (c0 c : Canvas) (ms : list Message) :
  sent c0 c ms -> sent c0 (updateElementCount c) ms.
Proof. intros H. apply (sent_quiet_r _ _ _ _ H). auto with channel. Qed.

Lemma sent_hidePlaceholder (c0 c : Canvas) (ms : list Message) :
  sent c0 c ms -> sent c0 (hidePlaceholder c) ms.
Proof. intros H. apply (sent_quiet_r _ _ _ _ H). auto with channel. Qed.

Lemma sent_notifyElementRemoved (c0 : Canvas) (i : string) (b : bool)
    (c : Canvas) (ms : list Message) :
  sent c0 c ms -> sent c0 (notifyElementRemoved i b c) ms.
Proof. intros H. apply (sent_quiet_r _ _ _ _ H). auto with channel. Qed.

(** Strips, from the outside in, the steps that leave the channel alone. *)
Ltac peel :=
  cbv beta iota zeta; cbn [snd];
  repeat first
    [ apply sent_console | apply sent_set_elements
    | apply sent_updateElementCount | apply sent_hidePlaceholder
    | apply sent_notifyElementRemoved ].

(** Closes [sent c c' [m]] where [c'] is reached by one [sendCommand]. *)
Ltac one_send := peel; eapply sent_sendCommand; solve [auto 10 with channel].

(** Closes [sent c c' [m; m']] where [c'] is reached by two in a row. *)
Ltac two_sends :=
  peel; eapply (sent_app _ _ _ [_] [_]); [|apply sendCommand_sent];
  eapply sent_sendCommand; solve [auto 10 with channel].

Lemma insertElement_command (html : string) (position : option JsObject)
    (options : Options) (now : Z) (r : FetchResult) (c : Canvas) :
  exists m,
    sent c (snd (insertElement html position options now r c)) [m] /\
    action m = "insertTextBox" /\
    flags m = (JBool true, JBool true, JBool true).
Proof.
  unfold insertElement.
  destruct (opt_positionWidth options) as [w|];
    [destruct (opt_positionHeight options) as [h|];
     [destruct (opt_useAutoPosition options && truthy (JNum w) && truthy (JNum h));
      [destruct (getAutoPosition _ _ w h r c) as [autoPos c'] eqn:G;
       assert (Q : quiet c c')
         by (change c' with (snd (autoPos, c')); rewrite <- G; auto with channel)
      |]|]|];
    eexists; (split; [one_send | split; reflexivity]).
Qed.

Lemma insertImage_command (html : string) (position : option JsObject)
    (elementId : option string) (options : Options) (now : Z)
    (r : FetchResult) (c : Canvas) :
  exists m,
    sent c (snd (insertImage html position elementId options now r c)) [m] /\
    action m = "insertImage" /\
    flags m = (JBool true, JBool true, JBool true).
Proof.
  unfold insertImage.
  destruct (opt_useAutoPosition options);
    [destruct (getAutoPosition _ _ _ _ r c) as [autoPos c'] eqn:G;
     assert (Q : quiet c c')
       by (change c' with (snd (autoPos, c')); rewrite <- G; auto with channel)|];
    eexists; (split; [one_send | split; reflexivity]).
Qed.

Lemma insertChart_command (parse : string -> Document) (html : string)
    (position : option JsObject) (elementId : option string)
    (options : Options) (now : Z) (r : FetchResult) (c : Canvas) :
  exists m,
    sent c (snd (insertChart parse html position elementId options now r c)) [m] /\
    action m = "insertChart" /\
    flags m = (JBool true, JBool true, JUndefined).
Proof.
  unfold insertChart.
  destruct (opt_useAutoPosition options);
    [destruct (getAutoPosition _ _ _ _ r c) as [autoPos c'] eqn:G;
     assert (Q : quiet c c')
       by (change c' with (snd (autoPos, c')); rewrite <- G; auto with channel)|];
    eexists; (split; [one_send | split; reflexivity]).
Qed.

Lemma insertDiagram_command (parse : string -> Document) (html : string)
    (position : option JsObject) (elementId : option string)
    (options : Options) (now : Z) (r : FetchResult) (c : Canvas) :
  exists m,
    sent c (snd (insertDiagram parse html position elementId options now r c))
      [m; mkMessage "reloadPresentation" [] "text-labs"] /\
    action m = "insertDiagram" /\
    flags m = (JBool true, JBool true, JUndefined).
Proof.
  unfold insertDiagram.
  destruct (opt_useAutoPosition options);
    [destruct (getAutoPosition _ _ _ _ r c) as [autoPos c'] eqn:G;
     assert (Q : quiet c c')
       by (change c' with (snd (autoPos, c')); rewrite <- G; auto with channel)|];
    eexists; (split; [two_sends | split; reflexivity]).
Qed.

Lemma FirstRevision_insertElement_command (html : string)
    (position : option JsObject) (now : Z) (c : Canvas) :
  exists m,
    sent c (snd (FirstRevision.insertElement html position now c)) [m] /\
    action m = "insertTextBox" /\
    flags m =
      (JBool true, JBool true,
       JBool (match position with Some _ => true | None => false end)).
Proof.
  unfold FirstRevision.insertElement.
  eexists; (split; [one_send | split; reflexivity]).
Qed.

Lemma sent_unique (c c' : Canvas) (ms ms' : list Message) :
  sent c c' ms -> sent c c' ms' -> ms = ms'.
Proof.
  unfold sent. intros (_ & H) (_ & H').
  destruct (isLoaded c); destruct H as (H1 & _); destruct H' as (H1' & _);
    rewrite H1 in H1'; apply app_inv_head in H1'; exact H1'.
Qed.

(** C4 as stated fails: a text box inserted with neither a position nor an
    allocator request is placed at the default position, and its command
    still carries skipAutoSize = true. *)
Lemma C4_skipAutoSize_not_iff_computed :
  ~ (forall html position options now r c m,
       sent c (snd (insertElement html position options now r c)) [m] ->
       truthy (getField (params m) "skipAutoSize") =
         positionComputed position options).
Proof.
  intros H.
  destruct (insertElement_command "<p>one</p>" None noOptions 1700000000000
              NetworkError page) as (m & Hs & _ & Hf).
  specialize (H _ _ _ _ _ _ m Hs).
  injection Hf as _ _ Hskip. rewrite Hskip in H. discriminate H.
Qed.

(** C4, amended.  Every insert method hands the channel exactly one
    insert<Kind> command (insertDiagram follows it with reloadPresentation),
    and that command carries draggable = true and resizable = true.  On
    insertTextBox and insertImage commands skipAutoSize is always true,
    whatever the origin of the position, so auto-sizing is suppressed
    whenever a position was given or computed; insertChart and insertDiagram
    commands carry no skipAutoSize field.  In the first revision of
    insertElement the flag is true exactly when a position argument was
    passed. *)
Theorem C4_insert_flags :
  (forall html position options now r c,
     exists m,
       sent c (snd (insertElement html position options now r c)) [m] /\
       action m = "insertTextBox" /\
       flags m = (JBool true, JBool true, JBool true)) /\
  (forall html position elementId options now r c,
     exists m,
       sent c (snd (insertImage html position elementId options now r c)) [m] /\
       action m = "insertImage" /\
       flags m = (JBool true, JBool true, JBool true)) /\
  (forall parse html position elementId options now r c,
     exists m,
       sent c (snd (insertChart parse html position elementId options now r c)) [m] /\
       action m = "insertChart" /\
       flags m = (JBool true, JBool true, JUndefined)) /\
  (forall parse html position elementId options now r c,
     exists m,
       sent c (snd (insertDiagram parse html position elementId options now r c))
         [m; mkMessage "reloadPresentation" [] "text-labs"] /\
       action m = "insertDiagram" /\
       flags m = (JBool true, JBool true, JUndefined)) /\
  (forall html position now c,
     exists m,
       sent c (snd (FirstRevision.insertElement html position now c)) [m] /\
       action m = "insertTextBox" /\
       flags m =
         (JBool true, JBool true,
          JBool (match position with Some _ => true | None => false end))).
Proof.
  repeat split; intros.
  - apply insertElement_command.
  - apply insertImage_command.
  - apply insertChart_command.
  - apply insertDiagram_command.
  - apply FirstRevision_insertElement_command.
Qed.

(** ** The content adapter *)

Lemma append_assoc (a b c : string) :
  ((a ++ b) ++ c = a ++ (b ++ c))%string.
Proof. induction a as [|x a IH]; simpl; [reflexivity|]. rewrite IH. reflexivity. Qed.










(** ** Update and removal *)

Lemma sendCommand_fetches (a : string) (p : JsObject) (c : Canvas) :
  fetches (trace (sendCommand a p c)) = fetches (trace c).
Proof.
  destruct (isLoaded c) eqn:L.
  - apply (sendCommand_ready a p c L).
  - apply (sendCommand_not_ready a p c L).
Qed.

(** What [deleteElement] leaves in the registry, and the request it makes. *)
Lemma deleteElement_elements (elementId : string) (resolved : bool) (c : Canvas) :
  elements (deleteElement elementId resolved c) =
    filter (fun e => negb (String.eqb (id e) elementId)) (elements c).
Proof.
  unfold deleteElement, notifyElementRemoved, updateElementCount.
  destruct (sendCommand_frame "deleteElement" [("elementId", JStr elementId)] c)
    as (He & _).
  destruct resolved;
    destruct (elementCount (set_elements _ _)); run; rewrite He; reflexivity.
Qed.

Lemma deleteElement_fetches (elementId : string) (resolved : bool) (c : Canvas) :
  fetches (trace (deleteElement elementId resolved c)) =
    fetches (trace c) ++
    [("DELETE", ("/api/position/" ++ sessionId c ++ "/elements/" ++ elementId)%string)].
Proof.
  unfold deleteElement, notifyElementRemoved, updateElementCount, sessionId.
  destruct (sendCommand_frame "deleteElement" [("elementId", JStr elementId)] c)
    as (_ & _ & _ & _ & _ & Hs).
  pose proof (sendCommand_fetches "deleteElement" [("elementId", JStr elementId)] c)
    as Hf.
  destruct resolved;
    destruct (elementCount (set_elements _ _)); run; rewrite Hs, Hf; reflexivity.
Qed.

Lemma deleteElement_sent (elementId : string) (resolved : bool) (c : Canvas) :
  sent c (deleteElement elementId resolved c)
    [mkMessage "deleteElement" [("elementId", JStr elementId)] "text-labs"].
Proof. unfold deleteElement. one_send. Qed.

Lemma filter_absent (elementId : string) (es : list Element) :
  ~ In elementId (map id es) ->
  filter (fun e => negb (String.eqb (id e) elementId)) es = es.
Proof.
  induction es as [|e es IH]; intros H; simpl; [reflexivity|].
  destruct (String.eqb_spec (id e) elementId) as [E|E]; simpl.
  - exfalso. apply H. left. exact E.
  - rewrite IH; [reflexivity|]. intros Hin. apply H. right. exact Hin.
Qed.

Lemma filter_present_shorter (elementId : string) (es : list Element) :
  In elementId (map id es) ->
  List.length (filter (fun e => negb (String.eqb (id e) elementId)) es)
    < List.length es.
Proof.
  induction es as [|e es IH]; intros H; simpl in *; [contradiction|].
  pose proof (filter_length_le (fun e => negb (String.eqb (id e) elementId)) es).
  destruct (String.eqb_spec (id e) elementId) as [E|E]; simpl.
  - lia.
  - destruct H as [H|H]; [contradiction|]. specialize (IH H). lia.
Qed.

(** C6.  Removing an id that is in the registry: the listing no longer has
    an element with that id and is shorter; the elements with other ids stay,
    unchanged and in their order; exactly one deleteElement command carrying
    the id was handed to the channel; and one DELETE request for that id was
    made to the allocator's service. *)
Theorem C6_remove_completeness
    (elementId : string) (resolved : bool) (c : Canvas) :
  In elementId (map id (elements c)) ->
  let c' := deleteElement elementId resolved c in
  ~ In elementId (map id (getElements c')) /\
  getElements c' =
    filter (fun e => negb (String.eqb (id e) elementId)) (elements c) /\
  (forall e, id e <> elementId -> (In e (getElements c') <-> In e (elements c))) /\
  getElementCount c' < getElementCount c /\
  sent c c'
    [mkMessage "deleteElement" [("elementId", JStr elementId)] "text-labs"] /\
  fetches (trace c') =
    fetches (trace c) ++
    [("DELETE", ("/api/position/" ++ sessionId c ++ "/elements/" ++ elementId)%string)].
Proof.
  intros Hin c'. unfold getElements, getElementCount. subst c'.
  rewrite deleteElement_elements.
  split; [|split; [reflexivity|split; [|split; [|split]]]].
  - rewrite in_map_iff. intros (e & He & Hf). apply filter_In in Hf.
    destruct Hf as [_ Hf]. rewrite He, String.eqb_refl in Hf. discriminate.
  - intros e Hne. rewrite filter_In. split; [tauto|]. intros H.
    split; [exact H|]. apply String.eqb_neq in Hne. rewrite Hne. reflexivity.
  - apply filter_present_shorter. exact Hin.
  - apply deleteElement_sent.
  - apply deleteElement_fetches.
Qed.

Lemma C6_remove_completeness_witness :
  In "el_1700000000000" (map id (elements pageWithQueuedInsert)) /\
  getElements (deleteElement "el_1700000000000" true pageWithQueuedInsert) = [] /\
  fetches (trace (deleteElement "el_1700000000000" true pageWithQueuedInsert)) =
    [("DELETE", "/api/position/default/elements/el_1700000000000")].
Proof.
  assert (Hin : In "el_1700000000000" (map id (elements pageWithQueuedInsert)))
    by (left; reflexivity).
  split; [exact Hin|].
  destruct (C6_remove_completeness "el_1700000000000" true pageWithQueuedInsert Hin)
    as (_ & Hl & _ & _ & _ & Hf).
  split; [rewrite Hl; reflexivity|rewrite Hf; reflexivity].
Defined.

(** C10.  Removing an id that is not in the registry leaves the elements as
    they are, while the deleteElement command is still handed to the channel
    and the DELETE request still made; hence a second removal of the same id
    leaves the elements as the first one left them. *)
Theorem C10_remove_idempotent
    (elementId : string) (resolved resolved' : bool) (c : Canvas) :
  (~ In elementId (map id (elements c)) ->
   elements (deleteElement elementId resolved c) = elements c) /\
  sent c (deleteElement elementId resolved c)
    [mkMessage "deleteElement" [("elementId", JStr elementId)] "text-labs"] /\
  fetches (trace (deleteElement elementId resolved c)) =
    fetches (trace c) ++
    [("DELETE", ("/api/position/" ++ sessionId c ++ "/elements/" ++ elementId)%string)] /\
  elements (deleteElement elementId resolved' (deleteElement elementId resolved c)) =
    elements (deleteElement elementId resolved c).
Proof.
  split; [|split; [|split]].
  - intros H. rewrite deleteElement_elements. apply filter_absent. exact H.
  - apply deleteElement_sent.
  - apply deleteElement_fetches.
  - rewrite !deleteElement_elements. apply filter_absent.
    rewrite in_map_iff. intros (e & He & Hf). apply filter_In in Hf.
    destruct Hf as [_ Hf]. rewrite He, String.eqb_refl in Hf. discriminate.
Qed.

Lemma C10_remove_idempotent_witness :
  ~ In "el_2" (map id (elements pageWithQueuedInsert)) /\
  elements (deleteElement "el_2" false pageWithQueuedInsert) =
    elements pageWithQueuedInsert.
Proof.
  assert (H : ~ In "el_2" (map id (elements pageWithQueuedInsert))).
  { simpl. intros [E|[]]. discriminate E. }
  split; [exact H|].
  exact (proj1 (C10_remove_idempotent "el_2" false false pageWithQueuedInsert) H).
Defined.

Lemma setHtmlOfFirst_absent (elementId newHtml : string) (es : list Element) :
  ~ In elementId (map id es) -> setHtmlOfFirst elementId newHtml es = es.
Proof.
  induction es as [|e es IH]; intros H; simpl; [reflexivity|].
  destruct (String.eqb_spec (id e) elementId) as [E|E].
  - exfalso. apply H. left. exact E.
  - rewrite IH; [reflexivity|]. intros Hin. apply H. right. exact Hin.
Qed.

(** C8.  An update hands the channel exactly one updateTextBoxContent
    command carrying the id and the content, whether or not the id is in the
    registry; when it is not, the elements are left as they are. *)
Theorem C8_update_sends_always (elementId newHtml : string) (c : Canvas) :
  let c' := updateElementContent elementId newHtml c in
  sent c c'
    [mkMessage "updateTextBoxContent"
       [("elementId", JStr elementId); ("content", JStr newHtml)] "text-labs"] /\
  (~ In elementId (map id (elements c)) -> elements c' = elements c).
Proof.
  unfold updateElementContent. split.
  - one_send.
  - intros H. cbn [elements set_elements].
    destruct (sendCommand_frame "updateTextBoxContent"
                [("elementId", JStr elementId); ("content", JStr newHtml)] c)
      as (He & _).
    rewrite He. apply setHtmlOfFirst_absent. exact H.
Qed.

Lemma C8_update_sends_always_witness :
  ~ In "el_2" (map id (elements pageWithQueuedInsert)) /\
  elements (updateElementContent "el_2" "<p>two</p>" pageWithQueuedInsert) =
    elements pageWithQueuedInsert /\
  map action
    (pendingMessages (updateElementContent "el_2" "<p>two</p>" pageWithQueuedInsert)) =
    ["insertTextBox"; "updateTextBoxContent"].
Proof.
  assert (H : ~ In "el_2" (map id (elements pageWithQueuedInsert))).
  { simpl. intros [E|[]]. discriminate E. }
  split; [exact H|].
  destruct (C8_update_sends_always "el_2" "<p>two</p>" pageWithQueuedInsert)
    as [Hs He].
  split; [exact (He H)|].
  assert (L : isLoaded pageWithQueuedInsert = false) by reflexivity.
  unfold sent in Hs. rewrite L in Hs. destruct Hs as (_ & Hq & _).
  rewrite Hq. reflexivity.
Defined.

(** ** Inbound messages *)

Lemma onMessage_viewerReady (d : JsObject) (c : Canvas) :
  isStr (getField d "source") "text-labs" = false ->
  isStr (getField d "action") "viewerReady" = true ->
  onMessage (Some d) c = markReady (console Log "[Canvas] Viewer ready" c).
Proof.
  intros Hs Ha. unfold onMessage. rewrite Hs, Ha.
  destruct (getField d "action") as [| |b|z|s]; try discriminate Ha.
  simpl in Ha. apply String.eqb_eq in Ha. subst s. reflexivity.
Qed.

Lemma onMessage_acknowledgement (d : JsObject) (c : Canvas) :
  isStr (getField d "source") "text-labs" = false ->
  isStr (getField d "action") "viewerReady" = false ->
  exists c',
    onMessage (Some d) c = Some c' /\
    elements c' = elements c /\
    pendingMessages c' = pendingMessages c /\
    isLoaded c' = isLoaded c /\
    attempts (trace c') = attempts (trace c) /\
    fetches (trace c') = fetches (trace c).
Proof.
  intros Hs Ha. unfold onMessage. rewrite Hs, Ha.
  destruct (isStr (getField d "action") "insertTextBox");
    [|destruct (isStr (getField d "action") "insertChart");
      [|destruct (isStr (getField d "action") "deleteElement");
        [|destruct (isStr (getField d "action") "elementSelected");
          [|destruct (isStr (getField d "action") "elementMoved")]]]];
    try destruct (truthy (getField d "success"));
    eexists; (split; [reflexivity|]); run; repeat split.
Qed.

(** C9 as stated fails: viewerReady is one of the recognized actions, and an
    external viewerReady message sets the readiness flag and empties the
    queue. *)
Lemma C9_viewerReady_mutates_channel :
  ~ (forall d c c',
       isStr (getField d "source") "text-labs" = false ->
       recognized (getField d "action") = true ->
       onMessage (Some d) c = Some c' ->
       elements c' = elements c /\
       pendingMessages c' = pendingMessages c /\
       isLoaded c' = isLoaded c).
Proof.
  intros H.
  destruct (markReady_flushes
              (console Log "[Canvas] Viewer ready" pageWithQueuedInsert))
    as (c' & Hrun & _ & Hl & _).
  destruct (H [("action", JStr "viewerReady")] pageWithQueuedInsert c'
              eq_refl eq_refl Hrun) as (_ & _ & Hl').
  rewrite Hl in Hl'. discriminate Hl'.
Qed.

(** C9, amended.  The listener does nothing at all on a message without
    data or with the channel's own source marker.  On an external message
    whose action is not viewerReady, recognized or not, it returns with the
    elements, the queue and the readiness flag as they were and hands
    nothing to the surface.  On an external viewerReady it performs the
    readiness transition: the elements are as they were, the flag is set,
    the queue is empty and what was queued has been handed over in order. *)
Theorem C9_inbound_frame :
  (forall c, onMessage None c = Some c) /\
  (forall d c,
     isStr (getField d "source") "text-labs" = true ->
     onMessage (Some d) c = Some c) /\
  (forall d c,
     isStr (getField d "source") "text-labs" = false ->
     isStr (getField d "action") "viewerReady" = false ->
     exists c',
       onMessage (Some d) c = Some c' /\
       elements c' = elements c /\
       pendingMessages c' = pendingMessages c /\
       isLoaded c' = isLoaded c /\
       attempts (trace c') = attempts (trace c)) /\
  (forall d c,
     isStr (getField d "source") "text-labs" = false ->
     isStr (getField d "action") "viewerReady" = true ->
     exists c',
       onMessage (Some d) c = Some c' /\
       elements c' = elements c /\
       pendingMessages c' = [] /\
       isLoaded c' = true /\
       attempts (trace c') =
         attempts (trace c) ++ map resend (pendingMessages c)).
Proof.
  split; [reflexivity|]. split; [|split].
  - intros d c Hs. unfold onMessage. rewrite Hs. reflexivity.
  - intros d c Hs Ha.
    destruct (onMessage_acknowledgement d c Hs Ha) as (c' & H1 & H2 & H3 & H4 & H5 & _).
    exists c'. repeat split; assumption.
  - intros d c Hs Ha. rewrite (onMessage_viewerReady d c Hs Ha).
    destruct (markReady_flushes (console Log "[Canvas] Viewer ready" c))
      as (c' & Hrun & Hq & Hl & He & _ & Hat & _).
    exists c'. revert Hat. run. intros Hat.
    repeat split; assumption.
Qed.

Lemma C9_inbound_frame_witness :
  onMessage
    (Some [("source", JStr "text-labs"); ("action", JStr "viewerReady")])
    pageWithQueuedInsert = Some pageWithQueuedInsert /\
  (exists c',
     onMessage
       (Some [("action", JStr "insertTextBox"); ("success", JBool true);
              ("elementId", JStr "el_1700000000000")])
       pageWithQueuedInsert = Some c' /\
     pendingMessages c' = pendingMessages pageWithQueuedInsert /\
     isLoaded c' = false) /\
  (exists c',
     onMessage (Some [("action", JStr "viewerReady")]) pageWithQueuedInsert =
       Some c' /\
     pendingMessages c' = [] /\
     isLoaded c' = true).
Proof.
  destruct C9_inbound_frame as (_ & Hself & Hack & Hready).
  split;
    [exact (Hself [("source", JStr "text-labs"); ("action", JStr "viewerReady")]
              pageWithQueuedInsert eq_refl)|].
  split.
  - destruct (Hack [("action", JStr "insertTextBox"); ("success", JBool true);
                    ("elementId", JStr "el_1700000000000")]
                pageWithQueuedInsert eq_refl eq_refl)
      as (c' & Hrun & _ & Hq & Hl & _).
    exists c'. repeat split; assumption.
  - destruct (Hready [("action", JStr "viewerReady")] pageWithQueuedInsert
                eq_refl eq_refl)
      as (c' & Hrun & _ & Hq & Hl & _).
    exists c'. repeat split; assumption.
Defined.

(** * Further properties of the renderer *)

(** ** Order and loss on the channel *)

Lemma sendAll_sent (cmds : list (string * JsObject)) :
  forall c, sent c (sendAll cmds c) (map toMessage cmds).
Proof.
  induction cmds as [|[a p] cmds IH]; intros c.
  - unfold sent. simpl. split; [reflexivity|].
    destruct (isLoaded c); rewrite app_nil_r; split; reflexivity.
  - change (sendAll ((a, p) :: cmds) c) with (sendAll cmds (sendCommand a p c)).
    change (map toMessage ((a, p) :: cmds))
      with ([mkMessage a p "text-labs"] ++ map toMessage cmds).
    exact (sent_app _ _ _ _ _ (sendCommand_sent a p c) (IH _)).
Qed.

(** X1.  Commands sent before the surface is ready and commands sent after the
    transition reach postMessage in one sequence, the earlier ones first,
    and the queue ends empty. *)
Theorem order_kept_across_readiness
    (before after : list (string * JsObject)) (c : Canvas) :
  isLoaded c = false -> pendingMessages c = [] ->
  exists c1,
    markReady (sendAll before c) = Some c1 /\
    attempts (trace (sendAll after c1)) =
      attempts (trace c) ++ map toMessage before ++ map toMessage after /\
    pendingMessages (sendAll after c1) = [].
Proof.
  intros L Q.
  destruct (sendAll_not_ready before c L) as (_ & Hq & Ha & _).
  destruct (markReady_flushes (sendAll before c))
    as (c1 & Hrun & Hq1 & Hl1 & _ & _ & Ha1 & _).
  exists c1. split; [exact Hrun|].
  destruct (sendAll_sent after c1) as (_ & Hs). rewrite Hl1 in Hs.
  destruct Hs as (Hs & Hp).
  rewrite Hs, Hp, Ha1, Hq, Ha, Q, Hq1. simpl.
  rewrite resend_toMessage, <- app_assoc. split; reflexivity.
Qed.

Lemma order_kept_across_readiness_witness :
  isLoaded page = false /\ pendingMessages page = [] /\
  exists c1,
    markReady (sendAll sampleCommands page) = Some c1 /\
    attempts (trace (sendAll sampleCommands c1)) =
      map toMessage sampleCommands ++ map toMessage sampleCommands.
Proof.
  split; [reflexivity|]. split; [reflexivity|].
  destruct (order_kept_across_readiness sampleCommands sampleCommands page
              eq_refl eq_refl) as (c1 & Hrun & Ha & _).
  exists c1. split; [exact Hrun|exact Ha].
Defined.

Lemma processPendingMessages_detached (fuel : nat) :
  forall c, isLoaded c = true -> contentWindow c = false ->
    List.length (pendingMessages c) < fuel ->
    exists c',
      processPendingMessages fuel c = Some c' /\
      pendingMessages c' = [] /\
      delivered (trace c') = delivered (trace c).
Proof.
  induction fuel as [|fuel IH]; intros c L W Hlen; [lia|].
  simpl. destruct (pendingMessages c) as [|m rest] eqn:Q.
  - exists c. repeat split. exact Q.
  - set (c0 := set_pendingMessages rest c).
    destruct (sendCommand_frame (action m) (params m) c0)
      as (_ & Hl & _ & _ & Hw & _).
    destruct (sendCommand_ready (action m) (params m) c0 L) as (Hq & _).
    destruct (IH (sendCommand (action m) (params m) c0))
      as (c' & Hrun & Hq' & Hd').
    { rewrite Hl. exact L. }
    { rewrite Hw. exact W. }
    { rewrite Hq. subst c0. simpl in *. lia. }
    exists c'. split; [exact Hrun|]. split; [exact Hq'|].
    rewrite Hd'. unfold sendCommand. subst c0. simpl. rewrite L, W. simpl. run.
    reflexivity.
Qed.

(** X2.  A command sent, or a queue flushed, while the iframe has no window is
    lost: postMessage throws, the error is caught, nothing is delivered and
    nothing is kept for a later attempt. *)
Theorem detached_window_drops_commands (a : string) (p : JsObject) (c : Canvas) :
  contentWindow c = false ->
  (isLoaded c = true ->
   delivered (trace (sendCommand a p c)) = delivered (trace c) /\
   pendingMessages (sendCommand a p c) = pendingMessages c /\
   attempts (trace (sendCommand a p c)) =
     attempts (trace c) ++ [mkMessage a p "text-labs"]) /\
  exists c',
    markReady c = Some c' /\
    pendingMessages c' = [] /\
    delivered (trace c') = delivered (trace c).
Proof.
  intros W. split.
  - intros L. destruct (sendCommand_ready a p c L) as (Hq & Ha & _).
    split; [|split; assumption].
    unfold sendCommand. rewrite L, W. simpl. run. reflexivity.
  - unfold markReady.
    destruct (processPendingMessages_detached
                (S (List.length (pendingMessages c))) (set_isLoaded true c))
      as (c' & H); [reflexivity|exact W|simpl; lia|].
    exists c'. exact H.
Qed.

Lemma detached_window_drops_commands_witness :
  contentWindow (constructor None None false None) = false /\
  exists c',
    markReady (sendAll sampleCommands (constructor None None false None)) = Some c' /\
    pendingMessages c' = [] /\
    delivered (trace c') = [].
Proof.
  split; [reflexivity|].
  destruct (detached_window_drops_commands "" []
              (sendAll sampleCommands (constructor None None false None)) eq_refl)
    as (_ & c' & Hrun & Hq & Hd).
  exists c'. split; [exact Hrun|]. split; [exact Hq|exact Hd].
Defined.

(** X3.  The flush loop entered before the surface is ready with a message
    queued never ends: whatever the fuel, it runs out. *)
Theorem flush_before_ready_diverges (fuel : nat) (c : Canvas) :
  isLoaded c = false -> pendingMessages c <> [] ->
  processPendingMessages fuel c = None.
Proof. apply processPendingMessages_not_ready. Qed.

Lemma flush_before_ready_diverges_witness :
  isLoaded pageWithQueuedInsert = false /\
  pendingMessages pageWithQueuedInsert <> [] /\
  processPendingMessages 1000 pageWithQueuedInsert = None.
Proof.
  assert (Q : pendingMessages pageWithQueuedInsert <> []) by discriminate.
  split; [reflexivity|]. split; [exact Q|].
  exact (flush_before_ready_diverges 1000 pageWithQueuedInsert eq_refl Q).
Defined.

(** ** The registry under insertion *)

Lemma elements_sendCommand (a : string) (p : JsObject) (c : Canvas) :
  elements (sendCommand a p c) = elements c.
Proof. apply sendCommand_frame. Qed.

Lemma elements_hidePlaceholder (c : Canvas) :
  elements (hidePlaceholder c) = elements c.
Proof. unfold hidePlaceholder. destruct (placeholder c); reflexivity. Qed.

Lemma elements_updateElementCount (c : Canvas) :
  elements (updateElementCount c) = elements c.
Proof. unfold updateElementCount. destruct (elementCount c); reflexivity. Qed.

Lemma elements_getAutoPosition (i k : string) (w h : Z) (r : FetchResult)
    (c : Canvas) :
  elements (snd (getAutoPosition i k w h r c)) = elements c.
Proof.
  unfold getAutoPosition.
  destruct r as [|status body]; [|destruct (ok status); [destruct body|]];
    reflexivity.
Qed.

Lemma elements_notifyElementRemoved (i : string) (b : bool) (c : Canvas) :
  elements (notifyElementRemoved i b c) = elements c.
Proof. unfold notifyElementRemoved. destruct b; reflexivity. Qed.

Lemma elements_console (l : LogLevel) (text : string) (c : Canvas) :
  elements (console l text c) = elements c.
Proof. reflexivity. Qed.

Lemma elements_emit (e : Effect) (c : Canvas) :
  elements (emit e c) = elements c.
Proof. reflexivity. Qed.

Lemma elements_set_elements (es : list Element) (c : Canvas) :
  elements (set_elements es c) = es.
Proof. reflexivity. Qed.

Create Rewrite HintDb registry.
#[local] Hint Rewrite elements_sendCommand elements_hidePlaceholder
  elements_updateElementCount elements_getAutoPosition
  elements_notifyElementRemoved elements_console elements_emit
  elements_set_elements : registry.

Lemma placeholder_getAutoPosition (i k : string) (w h : Z) (r : FetchResult)
    (c : Canvas) :
  placeholder (snd (getAutoPosition i k w h r c)) = placeholder c.
Proof.
  unfold getAutoPosition.
  destruct r as [|status body]; [|destruct (ok status); [destruct body|]];
    reflexivity.
Qed.

(** Splits on whether the allocator is asked, naming what it answers. *)
Ltac allocator_cases r c :=
  repeat match goal with
    | |- context [match opt_positionWidth ?o with _ => _ end] =>
        destruct (opt_positionWidth o)
    | |- context [match opt_positionHeight ?o with _ => _ end] =>
        destruct (opt_positionHeight o)
    | |- context [if ?b then _ else (_, c)] => destruct b
    end;
  try (match goal with
       | |- context [getAutoPosition ?i ?k ?w ?h r c] =>
           let autoPos := fresh "autoPos" in
           let c' := fresh "c'" in
           let G := fresh "G" in
           destruct (getAutoPosition i k w h r c) as [autoPos c'] eqn:G;
           assert (quiet c c')
             by (change c' with (snd (autoPos, c')); rewrite <- G;
                 auto with channel);
           assert (elements c' = elements c)
             by (change c' with (snd (autoPos, c')); rewrite <- G;
                 apply elements_getAutoPosition);
           assert (placeholder c' = placeholder c)
             by (change c' with (snd (autoPos, c')); rewrite <- G;
                 apply placeholder_getAutoPosition)
       end).

(** Closes the facts about what an insert leaves in the registry. *)
Ltac registry :=
  cbv beta iota zeta; cbn [fst snd]; unfold getElementCount;
  autorewrite with registry;
  repeat match goal with H : elements _ = elements _ |- _ => rewrite H end;
  rewrite ?length_app; simpl; try reflexivity; try lia.

(** X4.  Every insert method appends exactly one element, carrying the id it
    returns and the html it was given, and hands the channel a command with
    the same id and the same grid row and column as the element's stored
    position. *)
Theorem insert_mirrors_registry :
  (forall html0 position0 options now r c,
     exists m e,
       sent c (snd (insertElement html0 position0 options now r c)) [m] /\
       elements (snd (insertElement html0 position0 options now r c)) =
         elements c ++ [e] /\
       id e = fst (insertElement html0 position0 options now r c) /\
       html e = html0 /\
       getField (params m) "elementId" = JStr (id e) /\
       getField (params m) "gridRow" = getField (position e) "gridRow" /\
       getField (params m) "gridColumn" = getField (position e) "gridColumn") /\
  (forall parse html0 position0 elementId options now r c,
     exists m e,
       sent c (snd (insertChart parse html0 position0 elementId options now r c)) [m] /\
       elements (snd (insertChart parse html0 position0 elementId options now r c)) =
         elements c ++ [e] /\
       id e = fst (insertChart parse html0 position0 elementId options now r c) /\
       html e = html0 /\
       getField (params m) "id" = JStr (id e) /\
       getField (params m) "gridRow" = getField (position e) "gridRow" /\
       getField (params m) "gridColumn" = getField (position e) "gridColumn") /\
  (forall html0 position0 elementId options now r c,
     exists m e,
       sent c (snd (insertImage html0 position0 elementId options now r c)) [m] /\
       elements (snd (insertImage html0 position0 elementId options now r c)) =
         elements c ++ [e] /\
       id e = fst (insertImage html0 position0 elementId options now r c) /\
       html e = html0 /\
       getField (params m) "id" = JStr (id e) /\
       getField (params m) "gridRow" = getField (position e) "gridRow" /\
       getField (params m) "gridColumn" = getField (position e) "gridColumn") /\
  (forall parse html0 position0 elementId options now r c,
     exists m e,
       sent c (snd (insertDiagram parse html0 position0 elementId options now r c))
         [m; mkMessage "reloadPresentation" [] "text-labs"] /\
       elements (snd (insertDiagram parse html0 position0 elementId options now r c)) =
         elements c ++ [e] /\
       id e = fst (insertDiagram parse html0 position0 elementId options now r c) /\
       html e = html0 /\
       getField (params m) "id" = JStr (id e) /\
       getField (params m) "gridRow" = getField (position e) "gridRow" /\
       getField (params m) "gridColumn" = getField (position e) "gridColumn").
Proof.
  split; [|split; [|split]]; intros.
  - unfold insertElement. allocator_cases r c;
      eexists; eexists; (split; [one_send|]); (split; [registry|]);
      repeat split.
  - unfold insertChart. allocator_cases r c;
      eexists; eexists; (split; [one_send|]); (split; [registry|]);
      repeat split.
  - unfold insertImage. allocator_cases r c;
      eexists; eexists; (split; [one_send|]); (split; [registry|]);
      repeat split.
  - unfold insertDiagram. allocator_cases r c;
      eexists; eexists; (split; [two_sends|]); (split; [registry|]);
      repeat split.
Qed.

(** ** Clearing *)

Lemma forEach_delete (es : list Element) :
  forall c,
    fold_left
      (fun c' element =>
         sendCommand "deleteElement" [("elementId", JStr (id element))] c') es c =
    sendAll (map (fun e => ("deleteElement", [("elementId", JStr (id e))])) es) c.
Proof.
  induction es as [|e es IH]; intros c; [reflexivity|].
  simpl. rewrite IH. reflexivity.
Qed.

Lemma sendAll_frame (cmds : list (string * JsObject)) :
  forall c,
    elements (sendAll cmds c) = elements c /\
    placeholder (sendAll cmds c) = placeholder c /\
    elementCount (sendAll cmds c) = elementCount c /\
    sessionManagerId (sendAll cmds c) = sessionManagerId c /\
    fetches (trace (sendAll cmds c)) = fetches (trace c).
Proof.
  induction cmds as [|[a p] cmds IH]; intros c; [repeat split|].
  change (sendAll ((a, p) :: cmds) c) with (sendAll cmds (sendCommand a p c)).
  destruct (IH (sendCommand a p c)) as (He & Hp & Hn & Hs & Hf).
  destruct (sendCommand_frame a p c) as (He' & _ & Hp' & Hn' & _ & Hs').
  rewrite He, Hp, Hn, Hs, Hf, He', Hp', Hn', Hs', sendCommand_fetches.
  repeat split.
Qed.

(** X5.  Clearing sends one deleteElement command per tracked element, in the
    order of the registry, then reloadPresentation; it leaves the registry
    empty and makes one DELETE request for the session's occupancy. *)
Theorem clearElements_empties_registry (resolved : bool) (c : Canvas) :
  let c' := clearElements resolved c in
  elements c' = [] /\
  sent c c'
    (map (fun e => deleteCommand (id e)) (elements c) ++
     [mkMessage "reloadPresentation" [] "text-labs"]) /\
  fetches (trace c') =
    fetches (trace c) ++
    [("DELETE", ("/api/position/" ++ sessionId c ++ "/clear")%string)].
Proof.
  unfold clearElements. rewrite forEach_delete.
  set (cmds := map (fun e => ("deleteElement", [("elementId", JStr (id e))]))
                 (elements c)).
  destruct (sendAll_frame cmds c) as (He & _ & _ & Hs & Hf).
  assert (Hmsgs : map toMessage cmds = map (fun e => deleteCommand (id e)) (elements c)).
  { subst cmds. rewrite map_map. reflexivity. }
  split; [|split].
  - destruct resolved; autorewrite with registry; reflexivity.
  - rewrite <- Hmsgs. eapply sent_app; [apply sendAll_sent|].
    destruct resolved; apply sent_sendCommand; unfold quiet, updateElementCount;
      destruct (elementCount _); run; repeat split.
  - rewrite sendCommand_fetches. unfold sessionId, updateElementCount.
    destruct resolved; destruct (elementCount _); run; rewrite Hs, Hf; reflexivity.
Qed.

(** ** The counter and the placeholder *)

Lemma counterInSync_updateElementCount (c : Canvas) :
  counterInSync (updateElementCount c).
Proof.
  unfold counterInSync, updateElementCount.
  destruct (elementCount c) eqn:E; simpl; [reflexivity|rewrite E; exact I].
Qed.

Lemma counterInSync_same (c c' : Canvas) :
  elements c' = elements c -> elementCount c' = elementCount c ->
  counterInSync c -> counterInSync c'.
Proof. unfold counterInSync. intros -> ->. exact (fun H => H). Qed.

Lemma counterInSync_hidePlaceholder (c : Canvas) :
  counterInSync c -> counterInSync (hidePlaceholder c).
Proof.
  apply counterInSync_same; unfold hidePlaceholder;
    destruct (placeholder c); reflexivity.
Qed.

Lemma counterInSync_console (l : LogLevel) (text : string) (c : Canvas) :
  counterInSync c -> counterInSync (console l text c).
Proof. apply counterInSync_same; reflexivity. Qed.

Lemma counterInSync_sendCommand (a : string) (p : JsObject) (c : Canvas) :
  counterInSync c -> counterInSync (sendCommand a p c).
Proof. apply counterInSync_same; apply sendCommand_frame. Qed.

Lemma counterInSync_notifyElementRemoved (i : string) (b : bool) (c : Canvas) :
  counterInSync c -> counterInSync (notifyElementRemoved i b c).
Proof.
  apply counterInSync_same; unfold notifyElementRemoved; destruct b; reflexivity.
Qed.

Lemma counterInSync_fetch (m u : string) (b : option JsObject) (c : Canvas) :
  counterInSync c -> counterInSync (emit (Fetch m u b) c).
Proof. apply counterInSync_same; reflexivity. Qed.

Lemma setHtmlOfFirst_ids (elementId newHtml : string) (es : list Element) :
  map id (setHtmlOfFirst elementId newHtml es) = map id es.
Proof.
  induction es as [|e es IH]; simpl; [reflexivity|].
  destruct (String.eqb (id e) elementId); simpl; [reflexivity|].
  rewrite IH. reflexivity.
Qed.

Create HintDb counter.
#[local] Hint Resolve counterInSync_updateElementCount
  counterInSync_hidePlaceholder counterInSync_console
  counterInSync_sendCommand counterInSync_notifyElementRemoved
  counterInSync_fetch : counter.

(** X6.  After every insertion, removal and clearing the counter node shows the
    number of tracked elements, whatever it showed before; an update of an
    element's content keeps it right. *)
Theorem counter_kept_in_sync :
  (forall html0 position0 options now r c,
     counterInSync (snd (insertElement html0 position0 options now r c))) /\
  (forall parse html0 position0 elementId options now r c,
     counterInSync (snd (insertChart parse html0 position0 elementId options now r c))) /\
  (forall html0 position0 elementId options now r c,
     counterInSync (snd (insertImage html0 position0 elementId options now r c))) /\
  (forall parse html0 position0 elementId options now r c,
     counterInSync (snd (insertDiagram parse html0 position0 elementId options now r c))) /\
  (forall elementId resolved c,
     counterInSync (deleteElement elementId resolved c)) /\
  (forall resolved c, counterInSync (clearElements resolved c)) /\
  (forall elementId newHtml c,
     counterInSync c -> counterInSync (updateElementContent elementId newHtml c)).
Proof.
  repeat split; intros.
  - unfold insertElement. allocator_cases r c;
      cbv beta iota zeta; cbn [snd]; auto with counter.
  - unfold insertChart. allocator_cases r c;
      cbv beta iota zeta; cbn [snd]; auto with counter.
  - unfold insertImage. allocator_cases r c;
      cbv beta iota zeta; cbn [snd]; auto with counter.
  - unfold insertDiagram. allocator_cases r c;
      cbv beta iota zeta; cbn [snd]; auto with counter.
  - unfold deleteElement. auto with counter.
  - unfold clearElements. destruct resolved; auto 6 with counter.
  - unfold updateElementContent, counterInSync in *. cbn [elementCount elements set_elements].
    destruct (sendCommand_frame "updateTextBoxContent"
                [("elementId", JStr elementId); ("content", JStr newHtml)] c)
      as (He & _ & _ & Hn & _).
    rewrite Hn, He. destruct (elementCount c); [|exact I].
    rewrite <- (length_map id), setHtmlOfFirst_ids, length_map. exact H.
Qed.

Lemma counter_kept_in_sync_witness :
  counterInSync pageWithQueuedInsert /\
  elementCount (updateElementContent "el_1700000000000" "<p>two</p>"
                  pageWithQueuedInsert) = Some "Elements: 1".
Proof.
  destruct counter_kept_in_sync as (Hins & _ & _ & _ & _ & _ & Hupd).
  assert (H : counterInSync pageWithQueuedInsert)
    by exact (Hins "<p>one</p>" None noOptions 1700000000000%Z NetworkError page).
  split; [exact H|].
  pose proof (Hupd "el_1700000000000" "<p>two</p>" pageWithQueuedInsert H) as H'.
  unfold counterInSync in H'.
  destruct (elementCount (updateElementContent _ _ _)) as [text|] eqn:E.
  - rewrite H'. reflexivity.
  - discriminate E.
Defined.

Lemma placeholder_sendCommand (a : string) (p : JsObject) (c : Canvas) :
  placeholder (sendCommand a p c) = placeholder c.
Proof. apply sendCommand_frame. Qed.

Lemma placeholder_updateElementCount (c : Canvas) :
  placeholder (updateElementCount c) = placeholder c.
Proof. unfold updateElementCount. destruct (elementCount c); reflexivity. Qed.

Lemma placeholder_notifyElementRemoved (i : string) (b : bool) (c : Canvas) :
  placeholder (notifyElementRemoved i b c) = placeholder c.
Proof. unfold notifyElementRemoved. destruct b; reflexivity. Qed.

Lemma placeholder_hidePlaceholder (c : Canvas) :
  placeholder (hidePlaceholder c) =
    match placeholder c with Some _ => Some true | None => None end.
Proof. unfold hidePlaceholder. destruct (placeholder c) eqn:E; simpl; congruence. Qed.

Lemma showPlaceholder_tracked (c : Canvas) :
  elements c <> [] -> showPlaceholder c = c.
Proof.
  unfold showPlaceholder. intros H.
  destruct (placeholder c); [|reflexivity].
  destruct (elements c); [congruence|reflexivity].
Qed.

(** Closes the two facts about the placeholder after an insert. *)
Ltac placeholder_after_insert r c :=
  allocator_cases r c; cbv beta iota zeta; cbn [snd];
  (split;
   [ unfold placeholderIs;
     cbn [placeholder console emit set_elements];
     rewrite ?placeholder_hidePlaceholder, ?placeholder_updateElementCount;
     cbn [placeholder console emit set_elements];
     rewrite ?placeholder_sendCommand;
     cbn [placeholder console emit set_elements];
     rewrite ?placeholder_sendCommand;
     repeat match goal with
       | E : placeholder _ = placeholder _ |- _ => rewrite E
       end;
     reflexivity
   | apply showPlaceholder_tracked; autorewrite with registry;
     intros E; apply app_eq_nil in E; destruct E as [_ E]; discriminate E ]).

Lemma clearElements_empties_registry_aux (resolved : bool) (c : Canvas) :
  elements (clearElements resolved c) = [] /\
  placeholder (clearElements resolved c) = placeholder c.
Proof.
  unfold clearElements. rewrite forEach_delete.
  destruct (sendAll_frame
              (map (fun e => ("deleteElement", [("elementId", JStr (id e))]))
                 (elements c)) c) as (_ & Hp & _).
  split.
  - destruct resolved; autorewrite with registry; reflexivity.
  - rewrite placeholder_sendCommand.
    destruct resolved; cbn [placeholder console emit];
      rewrite placeholder_updateElementCount; exact Hp.
Qed.

(** X7.  An insert hides the placeholder, and asking to show it while elements
    are tracked changes nothing.  Clearing followed by showPlaceholder brings
    it back.  A removal never does, even when it removes the last element. *)
Theorem placeholder_follows_registry :
  (forall html0 position0 options now r c,
     let c' := snd (insertElement html0 position0 options now r c) in
     placeholderIs true c c' /\ showPlaceholder c' = c') /\
  (forall parse html0 position0 elementId options now r c,
     let c' := snd (insertChart parse html0 position0 elementId options now r c) in
     placeholderIs true c c' /\ showPlaceholder c' = c') /\
  (forall html0 position0 elementId options now r c,
     let c' := snd (insertImage html0 position0 elementId options now r c) in
     placeholderIs true c c' /\ showPlaceholder c' = c') /\
  (forall parse html0 position0 elementId options now r c,
     let c' := snd (insertDiagram parse html0 position0 elementId options now r c) in
     placeholderIs true c c' /\ showPlaceholder c' = c') /\
  (forall resolved c,
     placeholderIs false c (showPlaceholder (clearElements resolved c))) /\
  (forall elementId resolved c,
     placeholder (deleteElement elementId resolved c) = placeholder c).
Proof.
  split; [|split; [|split; [|split; [|split]]]]; intros;
    repeat match goal with x := _ |- _ => subst x end.
  - unfold insertElement. placeholder_after_insert r c.
  - unfold insertChart. placeholder_after_insert r c.
  - unfold insertImage. placeholder_after_insert r c.
  - unfold insertDiagram. placeholder_after_insert r c.
  - destruct (clearElements_empties_registry_aux resolved c) as (He & Hp).
    unfold placeholderIs, showPlaceholder. rewrite He, Hp.
    destruct (placeholder c) eqn:P; [reflexivity|exact Hp].
  - unfold deleteElement.
    rewrite placeholder_notifyElementRemoved, placeholder_updateElementCount.
    cbn [placeholder set_elements]. apply placeholder_sendCommand.
Qed.

(** ** Updates and colliding ids *)

Lemma setHtmlOfFirst_first (elementId newHtml : string)
    (before : list Element) (e : Element) (after : list Element) :
  id e = elementId -> ~ In elementId (map id before) ->
  setHtmlOfFirst elementId newHtml (before ++ e :: after) =
    before ++ mkElement (id e) (type e) (diagramType e) newHtml (position e) :: after.
Proof.
  intros He. induction before as [|b before IH]; intros Hn; simpl.
  - rewrite He, String.eqb_refl. reflexivity.
  - destruct (String.eqb_spec (id b) elementId) as [E|E].
    + exfalso. apply Hn. left. exact E.
    + rewrite IH; [reflexivity|]. intros Hin. apply Hn. right. exact Hin.
Qed.

Lemma updateElementContent_elements (elementId newHtml : string) (c : Canvas) :
  elements (updateElementContent elementId newHtml c) =
    setHtmlOfFirst elementId newHtml (elements c).
Proof.
  unfold updateElementContent. cbn [elements set_elements].
  rewrite elements_sendCommand. reflexivity.
Qed.

(** X8.  An update keeps the ids and the order of the registry, and rewrites the
    html of the first element carrying the id and of no other, also when
    later elements carry the same id. *)
Theorem update_rewrites_first_match (elementId newHtml : string) (c : Canvas)
    (before : list Element) (e : Element) (after : list Element) :
  elements c = before ++ e :: after ->
  id e = elementId -> ~ In elementId (map id before) ->
  let c' := updateElementContent elementId newHtml c in
  map id (elements c') = map id (elements c) /\
  elements c' =
    before ++ mkElement (id e) (type e) (diagramType e) newHtml (position e) :: after.
Proof.
  intros Hc He Hn c'. subst c'. rewrite updateElementContent_elements. split.
  - apply setHtmlOfFirst_ids.
  - rewrite Hc. apply setHtmlOfFirst_first; assumption.
Qed.

Lemma update_rewrites_first_match_witness :
  map html
    (elements (updateElementContent "el_1700000000000" "<p>two</p>"
                 pageWithQueuedInsert)) = ["<p>two</p>"].
Proof.
  destruct (update_rewrites_first_match "el_1700000000000" "<p>two</p>"
              pageWithQueuedInsert []
              (mkElement "el_1700000000000" None None "<p>one</p>"
                 [("gridRow", JStr "4/18"); ("gridColumn", JStr "2/32")]) [])
    as (_ & H); [reflexivity|reflexivity|intros []|].
  rewrite H. reflexivity.
Defined.

Lemma insertElement_plain (html0 : string) (position0 : option JsObject)
    (now : Z) (r : FetchResult) (c : Canvas) :
  fst (insertElement html0 position0 noOptions now r c) =
    ("el_" ++ Z_to_string now)%string /\
  elements (snd (insertElement html0 position0 noOptions now r c)) =
    elements c ++
    [mkElement ("el_" ++ Z_to_string now)%string None None html0
       (match position0 with
        | Some p => p
        | None => [("gridRow", JStr "4/18"); ("gridColumn", JStr "2/32")]
        end)].
Proof.
  unfold insertElement. cbn [noOptions opt_elementId opt_positionWidth strOr fst snd].
  split; [reflexivity|]. autorewrite with registry. reflexivity.
Qed.

(** X9.  Two text boxes inserted without an id while the clock shows the same
    millisecond get the same id.  A removal by that id then takes both out,
    and an update by that id rewrites the first and leaves the second. *)
Theorem same_clock_ids_collide
    (html1 html2 newHtml : string) (position1 position2 : option JsObject)
    (now : Z) (r1 r2 : FetchResult) (resolved : bool) (c : Canvas) :
  ~ In ("el_" ++ Z_to_string now)%string (map id (elements c)) ->
  let first := insertElement html1 position1 noOptions now r1 c in
  let second := insertElement html2 position2 noOptions now r2 (snd first) in
  fst first = fst second /\
  elements (deleteElement (fst first) resolved (snd second)) = elements c /\
  map html (elements (updateElementContent (fst first) newHtml (snd second))) =
    map html (elements c) ++ [newHtml; html2].
Proof.
  intros Hn first second. subst first second.
  destruct (insertElement_plain html1 position1 now r1 c) as (Hi1 & He1).
  destruct (insertElement_plain html2 position2 now r2
              (snd (insertElement html1 position1 noOptions now r1 c)))
    as (Hi2 & He2).
  rewrite Hi1, Hi2. split; [reflexivity|]. split.
  - rewrite deleteElement_elements, He2, He1, !filter_app.
    rewrite (filter_absent _ _ Hn). simpl. rewrite String.eqb_refl. simpl.
    rewrite !app_nil_r. reflexivity.
  - rewrite updateElementContent_elements, He2, He1, <- app_assoc. simpl.
    rewrite setHtmlOfFirst_first by (reflexivity || exact Hn).
    rewrite map_app. reflexivity.
Qed.

Lemma same_clock_ids_collide_witness :
  ~ In ("el_" ++ Z_to_string 5)%string (map id (elements page)) /\
  elements
    (deleteElement "el_5" true
       (snd (insertElement "<p>b</p>" None noOptions 5 NetworkError
               (snd (insertElement "<p>a</p>" None noOptions 5 NetworkError page)))))
    = [].
Proof.
  assert (H : ~ In ("el_" ++ Z_to_string 5)%string (map id (elements page)))
    by (intros []).
  split; [exact H|].
  exact (proj1 (proj2 (same_clock_ids_collide "<p>a</p>" "<p>b</p>" "" None None 5
                         NetworkError NetworkError true page H))).
Defined.

(** ** The shape of positions *)



(** ** The allocator's answer *)

(** X11.  Every call of getAutoPosition makes one POST request and leaves the
    channel and the registry alone.  A 2xx answer with a readable body is
    passed on field by field, a missing field arriving undefined; a 2xx
    answer whose body is not JSON or is null gives the default position, as
    a failed request does, for a width and a height that are safe integers
    with 2 + width and 4 + height safe integers too. *)
Theorem allocator_answer_or_fallback
    (elementId elementType : string) (width height : Z)
    (r : FetchResult) (c : Canvas) :
  (forall status data, r = Response status (JsonObject data) -> ok status = true ->
     fst (getAutoPosition elementId elementType width height r c) =
       [("gridRow", getField data "grid_row");
        ("gridColumn", getField data "grid_column")]) /\
  (forall status,
     safeInteger width -> safeInteger height ->
     safeInteger (2 + width) -> safeInteger (4 + height) ->
     ok status = true ->
     r = Response status NotJson \/ r = Response status JsonNull ->
     fst (getAutoPosition elementId elementType width height r c) =
       fallbackPosition width height) /\
  fetches (trace (snd (getAutoPosition elementId elementType width height r c))) =
    fetches (trace c) ++ [("POST", "/api/position/auto")] /\
  quiet c (snd (getAutoPosition elementId elementType width height r c)) /\
  elements (snd (getAutoPosition elementId elementType width height r c)) =
    elements c.
Proof.
  split; [|split; [|split; [|split]]].
  - intros status data -> Hok. unfold getAutoPosition. rewrite Hok. reflexivity.
  - intros status _ _ _ _ Hok [-> | ->]; unfold getAutoPosition; rewrite Hok;
      reflexivity.
  - unfold getAutoPosition.
    destruct r as [|status body]; [|destruct (ok status); [destruct body|]];
      simpl; run; reflexivity.
  - auto with channel.
  - apply elements_getAutoPosition.
Qed.

Lemma allocator_answer_or_fallback_witness :
  safeInteger 14 /\ safeInteger 10 /\ safeInteger (2 + 14) /\ safeInteger (4 + 10) /\
  ok 200 = true /\
  fst (getAutoPosition "chart_1" "CHART" 14 10 (Response 200 (JsonObject [])) page) =
    [("gridRow", JUndefined); ("gridColumn", JUndefined)] /\
  fst (getAutoPosition "chart_1" "CHART" 14 10 (Response 200 JsonNull) page) =
    [("gridRow", JStr "4/14"); ("gridColumn", JStr "2/16")].
Proof.
  assert (S1 : safeInteger 14) by (unfold safeInteger; lia).
  assert (S2 : safeInteger 10) by (unfold safeInteger; lia).
  assert (S3 : safeInteger (2 + 14)) by (unfold safeInteger; lia).
  assert (S4 : safeInteger (4 + 10)) by (unfold safeInteger; lia).
  repeat (split; [assumption|]).
  split; [reflexivity|]. split.
  - exact (proj1 (allocator_answer_or_fallback "chart_1" "CHART" 14 10
                    (Response 200 (JsonObject [])) page) 200%Z [] eq_refl eq_refl).
  - exact (proj1 (proj2 (allocator_answer_or_fallback "chart_1" "CHART" 14 10
                           (Response 200 JsonNull) page))
             200%Z S1 S2 S3 S4 eq_refl (or_intror eq_refl)).
Defined.

(** ** The load promise *)

Lemma loadStep_settled (ev : LoadEvent) (l l' : Loading) :
  promise l <> Pending -> loadStep ev l = Some l' -> promise l' = promise l.
Proof.
  intros Hp Hs. destruct ev; unfold loadStep in Hs.
  - destruct (timeout l); injection Hs as <-; simpl;
      [destruct (promise l); [contradiction|reflexivity|reflexivity]|reflexivity].
  - destruct (processPendingMessages _ _); [|discriminate].
    injection Hs as <-. simpl.
    destruct (promise l); [contradiction|reflexivity|reflexivity].
  - injection Hs as <-. simpl.
    destruct (promise l); [contradiction|reflexivity|reflexivity].
Qed.

Lemma loadRun_settled (evs : list LoadEvent) :
  forall l l', promise l <> Pending -> loadRun evs l = Some l' ->
    promise l' = promise l.
Proof.
  induction evs as [|ev evs IH]; intros l l' Hp Hrun; simpl in Hrun.
  - injection Hrun as <-. reflexivity.
  - destruct (loadStep ev l) as [l1|] eqn:Hs; [|discriminate].
    pose proof (loadStep_settled ev l l1 Hp Hs) as H1.
    rewrite <- H1. apply IH; [congruence|exact Hrun].
Qed.

Lemma loadRun_total (evs : list LoadEvent) :
  forall l, exists l', loadRun evs l = Some l'.
Proof.
  induction evs as [|ev evs IH]; intros l; simpl; [eexists; reflexivity|].
  destruct (loadStep_total ev l) as (l1 & ->). apply IH.
Qed.

(** X12.  Whatever callbacks follow, in whatever order, the run returns and the
    promise of loadPresentation keeps what the first callback gave it:
    rejected after an error, resolved after a load or a timeout. *)
Theorem first_callback_settles_promise
    (viewerUrl : string) (c : Canvas) (ev : LoadEvent) (evs : list LoadEvent) :
  exists l',
    loadRun (ev :: evs) (loadPresentation viewerUrl c) = Some l' /\
    promise l' =
      match ev with
      | IframeError => Rejected
      | _ => Resolved
      end.
Proof.
  destruct (loadRun_total (ev :: evs) (loadPresentation viewerUrl c)) as (l' & Hrun).
  exists l'. split; [exact Hrun|].
  simpl in Hrun.
  destruct (loadStep ev (loadPresentation viewerUrl c)) as [l1|] eqn:Hs;
    [|discriminate].
  assert (H1 : promise l1 = match ev with IframeError => Rejected | _ => Resolved end).
  { destruct ev; unfold loadStep in Hs.
    - injection Hs as <-. reflexivity.
    - destruct (processPendingMessages _ _); [|discriminate].
      injection Hs as <-. reflexivity.
    - injection Hs as <-. reflexivity. }
  rewrite <- H1. apply (loadRun_settled evs l1 l'); [|exact Hrun].
  rewrite H1. destruct ev; discriminate.
Qed.

(** X13.  A load event that comes after the timeout still flushes the queue, in
    order; and once the load or the error callback has run the timer is
    cleared, so a timeout after it changes nothing. *)
Theorem late_load_flushes_and_timer_is_cleared (viewerUrl : string) (c : Canvas) :
  (exists l',
     loadRun [TimerFires; IframeLoad] (loadPresentation viewerUrl c) = Some l' /\
     promise l' = Resolved /\
     pendingMessages (canvas l') = [] /\
     attempts (trace (canvas l')) =
       attempts (trace c) ++ map resend (pendingMessages c)) /\
  loadRun [IframeLoad; TimerFires] (loadPresentation viewerUrl c) =
    loadRun [IframeLoad] (loadPresentation viewerUrl c) /\
  loadRun [IframeError; TimerFires] (loadPresentation viewerUrl c) =
    loadRun [IframeError] (loadPresentation viewerUrl c).
Proof.
  split; [|split].
  - destruct (loadStep_timeout viewerUrl c) as (l1 & H1 & P1 & _ & Q1 & A1).
    destruct (loadStep_onload l1) as (l2 & H2 & P2 & _ & Q2 & A2).
    exists l2. cbn [loadRun]. rewrite H1, H2.
    rewrite P2, P1, Q2, A2, A1, Q1. repeat split.
  - cbn [loadRun].
    destruct (loadStep IframeLoad (loadPresentation viewerUrl c)) as [l1|] eqn:H1;
      [|reflexivity].
    assert (T : timeout l1 = false).
    { unfold loadStep in H1. destruct (processPendingMessages _ _); [|discriminate].
      injection H1 as <-. reflexivity. }
    unfold loadStep at 1. rewrite T. reflexivity.
  - reflexivity.
Qed.

(** ** The first revision's charts *)

Lemma lacks_app (ch : ascii) (a b : string) :
  lacks ch (a ++ b)%string = lacks ch a && lacks ch b.
Proof.
  induction a as [|x a IH]; simpl; [reflexivity|].
  rewrite IH, andb_assoc. reflexivity.
Qed.

Lemma replaceAll_removes (ch : ascii) (rep s : string) :
  lacks ch rep = true -> lacks ch (replaceAll ch rep s) = true.
Proof.
  intros Hr. induction s as [|x s IH]; simpl; [reflexivity|].
  destruct (Ascii.eqb x ch) eqn:E.
  - rewrite lacks_app, Hr, IH. reflexivity.
  - simpl. rewrite E, IH. reflexivity.
Qed.

Lemma replaceAll_keeps (ch ch' : ascii) (rep s : string) :
  lacks ch' rep = true -> lacks ch' s = true ->
  lacks ch' (replaceAll ch rep s) = true.
Proof.
  intros Hr. induction s as [|x s IH]; simpl; intros Hs; [reflexivity|].
  apply andb_prop in Hs. destruct Hs as [Hx Hs].
  destruct (Ascii.eqb x ch).
  - rewrite lacks_app, Hr, (IH Hs). reflexivity.
  - simpl. rewrite Hx, (IH Hs). reflexivity.
Qed.

Lemma replaceAll_absent (ch : ascii) (rep s : string) :
  lacks ch s = true -> replaceAll ch rep s = s.
Proof.
  induction s as [|x s IH]; simpl; intros Hs; [reflexivity|].
  apply andb_prop in Hs. destruct Hs as [Hx Hs].
  apply negb_true_iff in Hx. rewrite Hx, (IH Hs). reflexivity.
Qed.

(** X14.  What the first revision puts in the srcdoc attribute holds neither a
    double nor a single quote, so the attribute ends where the template
    closes it; html without quotes goes in as it is.  The registry keeps the
    html it was given.  The escaping cannot be undone: a double quote and
    the text of its entity give the same attribute. *)
Theorem srcdoc_is_quote_free (html0 : string) (position0 : option JsObject)
    (now : Z) (c : Canvas) :
  lacks (ascii_of_nat 34) (FirstRevision.escapeHtml html0) = true /\
  lacks "'"%char (FirstRevision.escapeHtml html0) = true /\
  (lacks (ascii_of_nat 34) html0 = true -> lacks "'"%char html0 = true ->
   FirstRevision.escapeHtml html0 = html0) /\
  FirstRevision.escapeHtml dquote = FirstRevision.escapeHtml "&quot;" /\
  exists m e before after,
    sent c (snd (FirstRevision.insertChart html0 position0 now c)) [m] /\
    getField (params m) "content" =
      JStr (before ++ "srcdoc=" ++ dquote ++ FirstRevision.escapeHtml html0 ++
            dquote ++ after)%string /\
    elements (snd (FirstRevision.insertChart html0 position0 now c)) =
      elements c ++ [e] /\
    html e = html0.
Proof.
  unfold FirstRevision.escapeHtml. split; [|split; [|split; [|split]]].
  - apply replaceAll_keeps; [reflexivity|].
    apply replaceAll_removes. reflexivity.
  - apply replaceAll_removes. reflexivity.
  - intros Hd Hs. rewrite (replaceAll_absent _ _ html0 Hd).
    apply replaceAll_absent. exact Hs.
  - reflexivity.
  - unfold FirstRevision.insertChart.
    eexists. eexists.
    exists ("<iframe" ++ newline ++
            "            id=" ++ dquote ++ ("chart_" ++ Z_to_string now) ++
            "-iframe" ++ dquote ++ newline ++
            "            style=" ++ dquote ++
            "width: 100%; height: 100%; border: none; display: block; background: transparent;"
            ++ dquote ++ newline ++ "            ")%string.
    exists (newline ++
            "            scrolling=" ++ dquote ++ "no" ++ dquote ++ newline ++
            "            frameborder=" ++ dquote ++ "0" ++ dquote ++ newline ++
            "        ></iframe>")%string.
    split; [one_send|]. split.
    + cbn [params getField String.eqb Ascii.eqb Bool.eqb]. f_equal.
      unfold FirstRevision.escapeHtml. rewrite !append_assoc. reflexivity.
    + split; [registry|reflexivity].
Qed.

Lemma srcdoc_is_quote_free_witness :
  lacks (ascii_of_nat 34) "<canvas id='c'></canvas>" = true /\
  FirstRevision.escapeHtml "<canvas id='c'></canvas>" =
    "<canvas id=&#39;c&#39;></canvas>" /\
  lacks "'"%char (FirstRevision.escapeHtml "<canvas id='c'></canvas>") = true /\
  FirstRevision.escapeHtml "<p>plain</p>" = "<p>plain</p>".
Proof.
  split; [reflexivity|]. split; [reflexivity|].
  destruct (srcdoc_is_quote_free "<canvas id='c'></canvas>" None 0 page)
    as (_ & Hs & _).
  destruct (srcdoc_is_quote_free "<p>plain</p>" None 0 page)
    as (_ & _ & Hid & _).
  split; [exact Hs|exact (Hid eq_refl eq_refl)].
Defined.

(** ** Restoring a saved canvas *)

Lemma restoreElement_elements (c : Canvas) (entry : TextLabsApp.StateElement * Z) :
  elements (TextLabsApp.restoreElement c entry) =
    elements c ++ (if hasHtml entry then [restoredElement entry] else []) /\
  fetches (trace (TextLabsApp.restoreElement c entry)) = fetches (trace c).
Proof.
  destruct entry as [element now].
  unfold TextLabsApp.restoreElement, hasHtml, restoredElement. cbn [fst snd].
  destruct (truthy (ofOptStr (TextLabsApp.se_html element))).
  - unfold insertElement.
    cbn [noOptions opt_elementId opt_positionWidth strOr fst snd].
    split; [autorewrite with registry; reflexivity|].
    unfold hidePlaceholder, updateElementCount.
    destruct (elementCount _); destruct (placeholder _); run;
      apply sendCommand_fetches.
  - rewrite app_nil_r. split; reflexivity.
Qed.

Lemma restore_fold (entries : list (TextLabsApp.StateElement * Z)) :
  forall c,
    elements (fold_left TextLabsApp.restoreElement entries c) =
      elements c ++ map restoredElement (filter hasHtml entries) /\
    fetches (trace (fold_left TextLabsApp.restoreElement entries c)) =
      fetches (trace c).
Proof.
  induction entries as [|entry entries IH]; intros c; simpl.
  - rewrite app_nil_r. split; reflexivity.
  - destruct (IH (TextLabsApp.restoreElement c entry)) as (He & Hf).
    destruct (restoreElement_elements c entry) as (He1 & Hf1).
    rewrite He, Hf, He1, Hf1. split; [|reflexivity].
    destruct (hasHtml entry); simpl; rewrite <- app_assoc; reflexivity.
Qed.

(** X15.  Restoring a saved state appends one text box per entry that carries
    html, in the order of the state and with that html; every restored
    element has a row and a column, the defaults standing in for what the
    entry lacks; the allocator is never asked.  A failed or empty answer
    leaves the registry as it is. *)
Theorem restore_appends_entries_with_html
    (entries : list (TextLabsApp.StateElement * Z)) (c : Canvas) :
  let c' := TextLabsApp.restoreCanvasState (Some (Some entries)) c in
  elements c' = elements c ++ map restoredElement (filter hasHtml entries) /\
  getElementCount c' =
    getElementCount c + List.length (filter hasHtml entries) /\
  (forall e, In e (map restoredElement (filter hasHtml entries)) ->
     truthy (getField (position e) "gridRow") = true /\
     truthy (getField (position e) "gridColumn") = true /\
     html e <> "") /\
  fetches (trace c') = fetches (trace c) /\
  elements (TextLabsApp.restoreCanvasState None c) = elements c /\
  elements (TextLabsApp.restoreCanvasState (Some None) c) = elements c.
Proof.
  intros c'.
  assert (H : elements c' = elements c ++ map restoredElement (filter hasHtml entries) /\
              fetches (trace c') = fetches (trace c)).
  { subst c'. unfold TextLabsApp.restoreCanvasState.
    destruct entries as [|entry entries].
    - simpl. rewrite app_nil_r. split; reflexivity.
    - destruct (restore_fold (entry :: entries) (console Log "[App] Restoring" c))
        as (He & Hf).
      rewrite He, Hf. run. split; reflexivity. }
  destruct H as (He & Hf).
  split; [exact He|]. split; [|split; [|split; [exact Hf|split; reflexivity]]].
  - unfold getElementCount. rewrite He, length_app, length_map. reflexivity.
  - intros e Hin. apply in_map_iff in Hin. destruct Hin as (entry & <- & Hin).
    apply filter_In in Hin. destruct Hin as (_ & Hh).
    unfold restoredElement, hasHtml in *. cbn [position html getField String.eqb
      Ascii.eqb Bool.eqb]. unfold jsOr.
    split; [|split].
    + destruct (truthy (optField _ "grid_row")) eqn:A; [exact A|reflexivity].
    + destruct (truthy (optField _ "grid_column")) eqn:A; [exact A|reflexivity].
    + destruct (TextLabsApp.se_html (fst entry)) as [h|]; simpl in *; [|discriminate].
      destruct (String.eqb_spec h ""); [discriminate|assumption].
Qed.

Lemma restore_appends_entries_with_html_witness :
  map html
    (elements
       (TextLabsApp.restoreCanvasState
          (Some (Some [(TextLabsApp.mkStateElement (Some "<p>a</p>") None, 5%Z);
                       (TextLabsApp.mkStateElement None None, 5%Z);
                       (TextLabsApp.mkStateElement (Some "<p>b</p>")
                          (Some [("grid_row", JStr "5/9")]), 6%Z)]))
          page)) = ["<p>a</p>"; "<p>b</p>"].
Proof.
  rewrite (proj1 (restore_appends_entries_with_html
                    [(TextLabsApp.mkStateElement (Some "<p>a</p>") None, 5%Z);
                     (TextLabsApp.mkStateElement None None, 5%Z);
                     (TextLabsApp.mkStateElement (Some "<p>b</p>")
                        (Some [("grid_row", JStr "5/9")]), 6%Z)] page)).
  reflexivity.
Defined.

(** ** The API client *)

(** X16.  getCanvasState tells a missing state from a failure by looking for 404
    in the error's message.  A 404 answer whose body gives no detail is read
    as no state yet; a 404 answer whose body has a detail that does not
    mention 404 is thrown on; an answer with another failing status whose
    detail mentions 404 is read as no state yet; a 2xx answer is returned as
    it is. *)
Theorem canvas_state_404_is_read_off_the_message (syntaxError typeError : string) :
  (forall body,
     body = NotJson \/
     (exists d, body = JsonObject d /\ truthy (getField d "detail") = false) ->
     TextLabsAPI.getCanvasState syntaxError typeError (TextLabsAPI.Answers 404 body) =
       TextLabsAPI.Returned None) /\
  (forall d detail,
     getField d "detail" = JStr detail -> detail <> "" ->
     includes detail "404" = false ->
     TextLabsAPI.getCanvasState syntaxError typeError
       (TextLabsAPI.Answers 404 (JsonObject d)) = TextLabsAPI.Thrown detail) /\
  (forall status d detail,
     ok status = false -> getField d "detail" = JStr detail ->
     includes detail "404" = true ->
     TextLabsAPI.getCanvasState syntaxError typeError
       (TextLabsAPI.Answers status (JsonObject d)) = TextLabsAPI.Returned None) /\
  (forall status data,
     ok status = true ->
     TextLabsAPI.getCanvasState syntaxError typeError
       (TextLabsAPI.Answers status (JsonObject data)) =
       TextLabsAPI.Returned (Some data)).
Proof.
  unfold TextLabsAPI.getCanvasState, TextLabsAPI.request.
  split; [|split; [|split]].
  - intros body [-> | (d & -> & Hd)]; cbn [ok Z.leb Z.compare Pos.compare
      Pos.compare_cont andb negb]; [reflexivity|].
    unfold jsOr. rewrite Hd. reflexivity.
  - intros d detail Hd Hne Hi.
    cbn [ok Z.leb Z.compare Pos.compare Pos.compare_cont andb negb].
    unfold jsOr. rewrite Hd. simpl.
    apply String.eqb_neq in Hne. rewrite Hne. simpl. rewrite Hi. reflexivity.
  - intros status d detail Hok Hd Hi. rewrite Hok. simpl.
    unfold jsOr. rewrite Hd. simpl.
    destruct (String.eqb detail "") eqn:E.
    + apply String.eqb_eq in E. subst detail. discriminate Hi.
    + simpl. rewrite Hi. reflexivity.
  - intros status data Hok. rewrite Hok. reflexivity.
Qed.

Lemma canvas_state_404_is_read_off_the_message_witness :
  TextLabsAPI.getCanvasState "" ""
    (TextLabsAPI.Answers 404 (JsonObject [("detail", JStr "Not Found")])) =
    TextLabsAPI.Thrown "Not Found" /\
  TextLabsAPI.getCanvasState "" "" (TextLabsAPI.Answers 404 NotJson) =
    TextLabsAPI.Returned None /\
  TextLabsAPI.getCanvasState "" ""
    (TextLabsAPI.Answers 500 (JsonObject [("detail", JStr "upstream said 404")])) =
    TextLabsAPI.Returned None.
Proof.
  destruct (canvas_state_404_is_read_off_the_message "" "") as (H1 & H2 & H3 & _).
  split; [|split].
  - apply H2; [reflexivity|discriminate|reflexivity].
  - apply H1. left. reflexivity.
  - apply (H3 500%Z _ "upstream said 404"); reflexivity.
Defined.

(** ** Session ids *)

Lemma hexFor_single (c : ascii) (r : Z) :
  (0 <= r < 16)%Z -> exists ch, SessionManager.hexFor c r = String ch EmptyString.
Proof.
  intros H.
  assert (E : (r = 0 \/ r = 1 \/ r = 2 \/ r = 3 \/ r = 4 \/ r = 5 \/ r = 6 \/
               r = 7 \/ r = 8 \/ r = 9 \/ r = 10 \/ r = 11 \/ r = 12 \/
               r = 13 \/ r = 14 \/ r = 15)%Z) by lia.
  unfold SessionManager.hexFor.
  destruct (Ascii.eqb c "x");
    repeat (destruct E as [->|E]; [eexists; reflexivity|]);
    subst r; eexists; reflexivity.
Qed.

Lemma hexFor_variant (r : Z) :
  (0 <= r < 16)%Z ->
  In (SessionManager.hexFor "y" r) ["8"; "9"; "a"; "b"].
Proof.
  intros H.
  assert (E : (r = 0 \/ r = 1 \/ r = 2 \/ r = 3 \/ r = 4 \/ r = 5 \/ r = 6 \/
               r = 7 \/ r = 8 \/ r = 9 \/ r = 10 \/ r = 11 \/ r = 12 \/
               r = 13 \/ r = 14 \/ r = 15)%Z) by lia.
  repeat (destruct E as [->|E]; [vm_compute; tauto|]).
  subst r. vm_compute. tauto.
Qed.

Section Draws.

Variable random : nat -> Z.
Hypothesis in_range : forall k, (0 <= random k < 16)%Z.

Lemma replaceXY_length (t : string) :
  forall k, String.length (SessionManager.replaceXY t random k) = String.length t.
Proof.
  induction t as [|c t IH]; intros k; simpl; [reflexivity|].
  destruct (Ascii.eqb c "x" || Ascii.eqb c "y").
  - destruct (hexFor_single c (random k) (in_range k)) as (ch & ->).
    simpl. rewrite IH. reflexivity.
  - simpl. rewrite IH. reflexivity.
Qed.

Lemma replaceXY_get_other (t : string) :
  forall k n ch,
    String.get n t = Some ch ->
    Ascii.eqb ch "x" || Ascii.eqb ch "y" = false ->
    String.get n (SessionManager.replaceXY t random k) = Some ch.
Proof.
  induction t as [|c t IH]; intros k n ch Hg Hc; [discriminate Hg|].
  simpl. destruct n as [|n]; simpl in Hg.
  - injection Hg as ->. rewrite Hc. reflexivity.
  - destruct (Ascii.eqb c "x" || Ascii.eqb c "y").
    + destruct (hexFor_single c (random k) (in_range k)) as (d & ->).
      simpl. apply IH; assumption.
    + simpl. apply IH; assumption.
Qed.

Lemma replaceXY_get_variant (t : string) :
  forall k n,
    String.get n t = Some "y"%char ->
    exists v,
      String.get n (SessionManager.replaceXY t random k) = Some v /\
      In (String v EmptyString) ["8"; "9"; "a"; "b"].
Proof.
  induction t as [|c t IH]; intros k n Hg; [discriminate Hg|].
  simpl. destruct n as [|n]; simpl in Hg.
  - injection Hg as ->. simpl.
    destruct (hexFor_single "y" (random k) (in_range k)) as (d & Hd).
    pose proof (hexFor_variant (random k) (in_range k)) as Hv.
    rewrite Hd in *. exists d. split; [reflexivity|exact Hv].
  - destruct (Ascii.eqb c "x" || Ascii.eqb c "y").
    + destruct (hexFor_single c (random k) (in_range k)) as (d & ->).
      simpl. apply IH. exact Hg.
    + simpl. apply IH. exact Hg.
Qed.

End Draws.

Lemma substring_length (n : nat) :
  forall s, n <= String.length s -> String.length (String.substring 0 n s) = n.
Proof.
  induction n as [|n IH]; intros s H.
  - destruct s; reflexivity.
  - destruct s as [|c s]; simpl in *; [lia|]. rewrite IH; [reflexivity|lia].
Qed.

Lemma prefix_append (a b : string) : String.prefix a (a ++ b)%string = true.
Proof.
  induction a as [|x a IH]; simpl; [destruct b; reflexivity|].
  destruct (ascii_dec x x); [exact IH|congruence].
Qed.

Lemma generateId_unfold (random : nat -> Z) :
  SessionManager.generateId random =
    String "t" (String "l" (String "_"
      (SessionManager.replaceXY "xxxxxxxx-xxxx-4xxx-yxxx-xxxxxxxxxxxx" random 0))).
Proof. reflexivity. Qed.

(** X17.  With every draw of Math.random() * 16 | 0 between 0 and 15, a generated
    id is tl_ followed by 36 characters: hyphens at the UUID's places, 4 as
    the version digit, one of 8, 9, a, b as the variant digit.  Its display
    form is 15 characters long. *)
Theorem generated_id_has_uuid_shape (random : nat -> Z) :
  (forall k, (0 <= random k < 16)%Z) ->
  let i := SessionManager.generateId random in
  String.length i = 39 /\
  String.prefix "tl_" i = true /\
  String.get 11 i = Some "-"%char /\
  String.get 16 i = Some "-"%char /\
  String.get 21 i = Some "-"%char /\
  String.get 26 i = Some "-"%char /\
  String.get 17 i = Some "4"%char /\
  (exists v, String.get 22 i = Some v /\
             In (String v EmptyString) ["8"; "9"; "a"; "b"]) /\
  String.length (SessionManager.getDisplayId i) = 15.
Proof.
  intros R i. subst i. rewrite generateId_unfold.
  pose proof (replaceXY_length random R "xxxxxxxx-xxxx-4xxx-yxxx-xxxxxxxxxxxx" 0) as L.
  pose proof (replaceXY_get_other random R "xxxxxxxx-xxxx-4xxx-yxxx-xxxxxxxxxxxx"
                0 8 "-"%char eq_refl eq_refl) as G8.
  pose proof (replaceXY_get_other random R "xxxxxxxx-xxxx-4xxx-yxxx-xxxxxxxxxxxx"
                0 13 "-"%char eq_refl eq_refl) as G13.
  pose proof (replaceXY_get_other random R "xxxxxxxx-xxxx-4xxx-yxxx-xxxxxxxxxxxx"
                0 18 "-"%char eq_refl eq_refl) as G18.
  pose proof (replaceXY_get_other random R "xxxxxxxx-xxxx-4xxx-yxxx-xxxxxxxxxxxx"
                0 23 "-"%char eq_refl eq_refl) as G23.
  pose proof (replaceXY_get_other random R "xxxxxxxx-xxxx-4xxx-yxxx-xxxxxxxxxxxx"
                0 14 "4"%char eq_refl eq_refl) as G14.
  destruct (replaceXY_get_variant random R "xxxxxxxx-xxxx-4xxx-yxxx-xxxxxxxxxxxx"
              0 19 eq_refl) as (v & G19 & Hv).
  revert L G8 G13 G18 G23 G14 G19.
  generalize (SessionManager.replaceXY "xxxxxxxx-xxxx-4xxx-yxxx-xxxxxxxxxxxx" random 0).
  intros body L G8 G13 G18 G23 G14 G19.
  cbn [String.length] in L.
  split; [cbn [String.length]; rewrite L; reflexivity|].
  split; [change "tl_" with ("tl_" ++ "")%string at 1;
          change (String "t" (String "l" (String "_" body)))
            with ("tl_" ++ body)%string;
          clear; induction body; reflexivity|].
  cbn [String.get].
  repeat (split; [assumption|]).
  split; [exists v; split; assumption|].
  unfold SessionManager.getDisplayId.
  assert (A : forall a b, String.length (a ++ b)%string =
                          String.length a + String.length b).
  { intros a b. induction a as [|x a IH]; simpl; [reflexivity|]. rewrite IH.
    reflexivity. }
  rewrite A, substring_length; [reflexivity|].
  cbn [String.length]. rewrite L. lia.
Qed.

Lemma generated_id_has_uuid_shape_witness :
  (forall k, (0 <= (fun _ : nat => 10%Z) k < 16)%Z) /\
  SessionManager.generateId (fun _ => 10%Z) =
    "tl_aaaaaaaa-aaaa-4aaa-aaaa-aaaaaaaaaaaa" /\
  String.length (SessionManager.generateId (fun _ => 10%Z)) = 39.
Proof.
  assert (R : forall k, (0 <= (fun _ : nat => 10%Z) k < 16)%Z) by (intros; lia).
  split; [exact R|]. split; [reflexivity|].
  exact (proj1 (generated_id_has_uuid_shape (fun _ => 10%Z) R)).
Defined.

(** X18.  The id a session manager settles on is never empty and is what the
    storage holds afterwards, so a manager built later on that storage takes
    the same id without generating one; after a reset it takes the id the
    reset produced. *)
Theorem session_id_survives_reload
    (storageKey : string) (random random' random'' : nat -> Z)
    (st : SessionManager.Storage) :
  let first := SessionManager.loadOrCreate storageKey random st in
  let again := SessionManager.reset storageKey random' (snd first) in
  fst first <> "" /\
  SessionManager.getItem (snd first) storageKey = Some (fst first) /\
  SessionManager.loadOrCreate storageKey random'' (snd first) = first /\
  SessionManager.loadOrCreate storageKey random'' (snd again) = again.
Proof.
  assert (G : forall rnd, String.eqb (SessionManager.generateId rnd) "" = false)
    by reflexivity.
  assert (S : forall rnd st0,
            SessionManager.loadOrCreate storageKey random''
              (SessionManager.setItem st0 storageKey (SessionManager.generateId rnd)) =
            (SessionManager.generateId rnd,
             SessionManager.setItem st0 storageKey (SessionManager.generateId rnd))).
  { intros rnd st0. unfold SessionManager.loadOrCreate, SessionManager.setItem.
    cbn [SessionManager.getItem]. rewrite String.eqb_refl, G. reflexivity. }
  cbv zeta. unfold SessionManager.reset. cbn [fst snd].
  split; [|split; [|split; [|apply S]]].
  - unfold SessionManager.loadOrCreate.
    destruct (SessionManager.getItem st storageKey) as [s|] eqn:E;
      [destruct (String.eqb_spec s "")|]; cbn [fst];
      try assumption; apply String.eqb_neq, G.
  - unfold SessionManager.loadOrCreate.
    destruct (SessionManager.getItem st storageKey) as [s|] eqn:E;
      [destruct (String.eqb s "")|]; cbn [fst snd]; try exact E;
      unfold SessionManager.setItem; cbn [SessionManager.getItem];
      rewrite String.eqb_refl; reflexivity.
  - remember (SessionManager.loadOrCreate storageKey random st) as first eqn:F.
    unfold SessionManager.loadOrCreate in F.
    destruct (SessionManager.getItem st storageKey) as [s|] eqn:E;
      [destruct (String.eqb s "") eqn:E'|]; subst first; cbn [snd]; try apply S.
    unfold SessionManager.loadOrCreate. rewrite E, E'. reflexivity.
Qed.

(** ** The aspect ratio's divisor *)

Lemma gcdLoop_gcd (fuel : nat) :
  forall a b, (0 <= a)%Z -> (0 <= b)%Z -> Z.to_nat b < fuel ->
    AtomicModal.gcdLoop fuel a b = Some (Z.gcd a b).
Proof.
  induction fuel as [|fuel IH]; intros a b Ha Hb Hf; [lia|].
  simpl. destruct (Z.gtb_spec b 0) as [Hpos|Hz].
  - rewrite Z.rem_mod_nonneg by lia.
    pose proof (Z.mod_pos_bound a b Hpos) as Hm.
    rewrite IH by lia.
    f_equal. rewrite Z.gcd_comm, Z.gcd_mod by lia. apply Z.gcd_comm.
  - assert (b = 0)%Z by lia. subst b.
    rewrite Z.gcd_0_r, Z.abs_eq by exact Ha. reflexivity.
Qed.

(** X19.  Given one unit of fuel more than the size of its second argument,
    calculateGCD returns: a positive number that divides both arguments, the
    greatest common divisor unless both are zero, and 1 when both are. *)
Theorem calculateGCD_is_the_gcd (fuel : nat) (a b : Z) :
  Z.to_nat (Z.abs b) < fuel ->
  exists g,
    AtomicModal.calculateGCD fuel a b = Some g /\
    (0 < g)%Z /\ (g | a)%Z /\ (g | b)%Z /\
    (a <> 0%Z \/ b <> 0%Z -> g = Z.gcd a b) /\
    (a = 0%Z -> b = 0%Z -> g = 1%Z).
Proof.
  intros Hf. unfold AtomicModal.calculateGCD.
  rewrite (gcdLoop_gcd fuel (Z.abs a) (Z.abs b) (Z.abs_nonneg a) (Z.abs_nonneg b) Hf).
  rewrite Z.gcd_abs_l, Z.gcd_abs_r.
  pose proof (Z.gcd_nonneg a b) as Hn.
  pose proof (Z.gcd_divide_l a b) as Hl.
  pose proof (Z.gcd_divide_r a b) as Hr.
  destruct (Z.eqb_spec (Z.gcd a b) 0) as [E|E].
  - apply Z.gcd_eq_0 in E. destruct E as [-> ->].
    exists 1%Z.
    repeat split; try lia; try apply Z.divide_1_l;
      try (intros [H|H]; congruence).
  - exists (Z.gcd a b).
    repeat split; try assumption; try lia;
      try (intros -> ->; rewrite Z.gcd_0_l in E; simpl in E; congruence).
Qed.

Lemma calculateGCD_is_the_gcd_witness :
  Z.to_nat (Z.abs 14) < 15 /\
  AtomicModal.calculateGCD 15 30 14 = Some 2%Z.
Proof.
  assert (H : Z.to_nat (Z.abs 14) < 15) by (simpl; lia).
  split; [exact H|].
  destruct (calculateGCD_is_the_gcd 15 30 14 H) as (g & Hg & _ & _ & _ & He & _).
  rewrite Hg. f_equal. rewrite He; [reflexivity|left; discriminate].
Defined.

(** ** A text box inserted before the surface is ready *)

(** X20.  A text box inserted with no position while the surface is not ready and
    nothing is queued is counted at once and its command waits, alone, in the
    queue; the readiness transition then hands the surface exactly that
    insertTextBox command, with the element's id, its html and the default
    position 4/18, 2/32. *)
Theorem queued_insert_arrives_with_default_position
    (html0 : string) (now : Z) (r : FetchResult) (c : Canvas) :
  isLoaded c = false -> pendingMessages c = [] ->
  let c1 := snd (insertElement html0 None noOptions now r c) in
  getElementCount c1 = S (getElementCount c) /\
  List.length (pendingMessages c1) = 1 /\
  attempts (trace c1) = attempts (trace c) /\
  exists c2 m,
    markReady c1 = Some c2 /\
    attempts (trace c2) = attempts (trace c) ++ [m] /\
    pendingMessages c2 = [] /\
    action m = "insertTextBox" /\
    getField (params m) "elementId" = JStr ("el_" ++ Z_to_string now)%string /\
    getField (params m) "content" = JStr html0 /\
    getField (params m) "gridRow" = JStr "4/18" /\
    getField (params m) "gridColumn" = JStr "2/32".
Proof.
  intros L Q c1.
  destruct (insertElement_plain html0 None now r c) as (_ & He).
  fold c1 in He.
  assert (Hs : sent c c1
                 [mkMessage "insertTextBox"
                    [("elementId", JStr ("el_" ++ Z_to_string now)%string);
                     ("slideIndex", JNum 0);
                     ("content", JStr html0);
                     ("gridRow", JStr "4/18");
                     ("gridColumn", JStr "2/32");
                     ("positionWidth", JUndefined);
                     ("positionHeight", JUndefined);
                     ("skipAutoSize", JBool true);
                     ("draggable", JBool true);
                     ("resizable", JBool true)] "text-labs"]).
  { subst c1. unfold insertElement.
    cbn [noOptions opt_elementId opt_positionWidth opt_positionHeight strOr].
    one_send. }
  unfold sent in Hs. rewrite L, Q in Hs. destruct Hs as (_ & Hq & Ha).
  split; [unfold getElementCount; rewrite He, length_app; simpl; lia|].
  split; [rewrite Hq; reflexivity|]. split; [exact Ha|].
  destruct (markReady_flushes c1) as (c2 & Hrun & Hq2 & _ & _ & _ & Ha2 & _).
  exists c2. eexists. split; [exact Hrun|].
  split; [rewrite Ha2, Ha, Hq; reflexivity|].
  split; [exact Hq2|]. repeat split.
Qed.

Lemma queued_insert_arrives_with_default_position_witness :
  isLoaded page = false /\ pendingMessages page = [] /\
  getElementCount pageWithQueuedInsert = 1 /\
  List.length (pendingMessages pageWithQueuedInsert) = 1.
Proof.
  split; [reflexivity|]. split; [reflexivity|].
  destruct (queued_insert_arrives_with_default_position "<p>one</p>"
              1700000000000 NetworkError page eq_refl eq_refl) as (Hc & Hq & _).
  split; [exact Hc|exact Hq].
Defined.

(** ** Removal in the two revisions *)

(** X21.  The first revision's removal leaves the registry and the counter as the
    latest one does and sends the same command; it makes no request to the
    allocator, which the latest always does. *)
Theorem removal_across_revisions (elementId : string) (resolved : bool) (c : Canvas) :
  elements (FirstRevision.deleteElement elementId c) =
    elements (deleteElement elementId resolved c) /\
  elementCount (FirstRevision.deleteElement elementId c) =
    elementCount (deleteElement elementId resolved c) /\
  sent c (FirstRevision.deleteElement elementId c) [deleteCommand elementId] /\
  fetches (trace (FirstRevision.deleteElement elementId c)) = fetches (trace c) /\
  List.length (fetches (trace (deleteElement elementId resolved c))) =
    S (List.length (fetches (trace c))).
Proof.
  split; [|split; [|split; [|split]]].
  - rewrite deleteElement_elements. unfold FirstRevision.deleteElement.
    autorewrite with registry. reflexivity.
  - unfold FirstRevision.deleteElement, deleteElement, notifyElementRemoved,
      updateElementCount.
    destruct resolved; destruct (elementCount (set_elements _ _)); reflexivity.
  - unfold FirstRevision.deleteElement, deleteCommand. one_send.
  - unfold FirstRevision.deleteElement, updateElementCount.
    destruct (elementCount (set_elements _ _)); run; apply sendCommand_fetches.
  - rewrite deleteElement_fetches, length_app. simpl. lia.
Qed.
